(** * EU Car Predict: the valuation pipeline of [predict.py] and [app.py]

    A shallow embedding of the two programs of the repository, the console
    program [predict.py] and the Streamlit page [app.py], and the properties
    of their valuation pipeline.

    Conventions of the embedding:
    - a Python [int] is a [Z]; a Python [float] that the programs compare,
      multiply, divide or truncate is an IEEE 754 binary64 value, a
      [spec_float] of the standard library at precision 53;
    - a Python [str] is a [string] whose characters are read as the code
      points 0..255;
    - a JSON object used as a dictionary is a [gmap] on strings;
    - [None] is [None], and a raised exception is the failure of the
      error monad;
    - the outputs of the two regressors, the condition factor inside the
      price formula and the price are real numbers: [numpy.expm1] is the real
      function [exp x - 1], and a price computed from a condition factor
      that is an infinity or a NaN is [None]. *)

From Stdlib Require Import ZArith Reals Lra Lia Bool Ascii String.
From Stdlib Require Import Floats.SpecFloat.
From stdpp Require Import base option list strings gmap sorting.

Local Open Scope Z_scope.

(** ** Binary64 arithmetic *)

Module F64.

Definition prec : Z := 53.
Definition emax : Z := 1024.

(** [float(z)] for a Python int: the nearest binary64, ties to even;
    [OverflowError] when the int is too large. *)
Definition of_int (z : Z) : option spec_float :=
  match binary_normalize prec emax z 0 false with
  | S754_infinity _ => None
  | f => Some f
  end.

(** The value of the decimal literal [n / d], with [d] a power of ten and
    both below 2^53: Python reads a float literal as the binary64 nearest
    to its decimal value, which is what the IEEE division of the two
    exactly represented integers returns. *)
Definition literal (n d : Z) : spec_float :=
  SFdiv prec emax (binary_normalize prec emax n 0 false)
                  (binary_normalize prec emax d 0 false).

Definition mul : spec_float -> spec_float -> spec_float := SFmul prec emax.

(** Float division; Python raises [ZeroDivisionError] on a zero divisor. *)
Definition div (x y : spec_float) : option spec_float :=
  match y with
  | S754_zero _ => None
  | _ => Some (SFdiv prec emax x y)
  end.

(** [x <= y] on floats: false as soon as one side is a NaN. *)
Definition leb : spec_float -> spec_float -> bool := SFleb.


(** The integer part of a positive mantissa [m] scaled by [2^e]. *)
Definition scale_trunc (m : positive) (e : Z) : Z :=
  match e with
  | Zneg p => Z.shiftr (Zpos m) (Zpos p)
  | _ => Z.shiftl (Zpos m) e
  end.

(** [int(x)] for a float: truncation toward zero; [ValueError] on a NaN,
    [OverflowError] on an infinity. *)
Definition to_int (x : spec_float) : option Z :=
  match x with
  | S754_zero _ => Some 0
  | S754_finite s m e => Some (cond_Zopp s (scale_trunc m e))
  | S754_infinity _ | S754_nan => None
  end.

(** [round(x)] for a float, without a digit count: the nearest integer,
    ties to the even one. *)
Definition round_half_even (m : positive) (e : Z) : Z :=
  match e with
  | Zneg p =>
      let q := Z.shiftr (Zpos m) (Zpos p) in
      let r := Z.land (Zpos m) (Z.ones (Zpos p)) in
      let half := Z.shiftl 1 (Zpos p - 1) in
      match r ?= half with
      | Lt => q
      | Gt => q + 1
      | Eq => if Z.even q then q else q + 1
      end
  | _ => Z.shiftl (Zpos m) e
  end.

Definition round (x : spec_float) : option Z :=
  match x with
  | S754_zero _ => Some 0
  | S754_finite s m e => Some (cond_Zopp s (round_half_even m e))
  | S754_infinity _ | S754_nan => None
  end.

(** The real number a finite float stands for; an infinity and a NaN stand
    for none. *)
Definition to_R (x : spec_float) : option R :=
  match x with
  | S754_zero _ => Some 0%R
  | S754_finite s m e => Some (IZR (cond_Zopp s (Zpos m)) * powerRZ 2 e)%R
  | S754_infinity _ | S754_nan => None
  end.

(** The literals of the two programs. *)
Definition f1_2 : spec_float := Eval vm_compute in literal 12 10.
Definition f1_5 : spec_float := Eval vm_compute in literal 15 10.
Definition f1_6 : spec_float := Eval vm_compute in literal 16 10.
Definition f2_0 : spec_float := Eval vm_compute in literal 20 10.
Definition f1_36 : spec_float := Eval vm_compute in literal 136 100.

(** [kw * 1.36] and [hp / 1.36] for an int on the left: the int is
    converted first. *)
Definition int_mul (z : Z) (y : spec_float) : option spec_float :=
  x ← of_int z; Some (mul x y).

Definition int_div (z : Z) (y : spec_float) : option spec_float :=
  x ← of_int z; div x y.

End F64.

(** ** Python string methods *)

Module PyStr.

Local Open Scope N_scope.

Definition code (c : ascii) : N := N_of_ascii c.

(** [c.isspace()] on the code points below 256. *)
Definition is_space (c : ascii) : bool :=
  let n := code c in
  ((9 <=? n) && (n <=? 13)) || ((28 <=? n) && (n <=? 32))
  || (n =? 133) || (n =? 160).

(** The upper-case letters below 256: A-Z and the Latin-1 capitals. *)
Definition is_upper (c : ascii) : bool :=
  let n := code c in
  ((65 <=? n) && (n <=? 90))
  || ((192 <=? n) && (n <=? 222) && negb (n =? 215)).

(** The lower-case letters below 256, with the three cased signs that
    have no capital of their own (feminine and masculine ordinal, micro). *)
Definition is_lower (c : ascii) : bool :=
  let n := code c in
  ((97 <=? n) && (n <=? 122))
  || ((223 <=? n) && (n <=? 255) && negb (n =? 247))
  || (n =? 170) || (n =? 181) || (n =? 186).

Definition is_cased (c : ascii) : bool := is_upper c || is_lower c.

Definition lower_char (c : ascii) : ascii :=
  if is_upper c then ascii_of_N (code c + 32) else c.

(** The capital of a letter. Three lower-case letters below 256 have a
    capital that is not below 256 (sharp s, micro, y with diaeresis); the
    model leaves them as they are, and so is exact on every other
    character. *)
Definition upper_char (c : ascii) : ascii :=
  let n := code c in
  if ((97 <=? n) && (n <=? 122))
     || ((224 <=? n) && (n <=? 254) && negb (n =? 247))
  then ascii_of_N (n - 32) else c.

(** [s.lower()] *)
Fixpoint lower (s : string) : string :=
  match s with
  | EmptyString => EmptyString
  | String c s' => String (lower_char c) (lower s')
  end.

(** [s.title()]: a cased character is capitalised when the character
    before it is not cased, and lower-cased otherwise. *)
Fixpoint title_go (previous_is_cased : bool) (s : string) : string :=
  match s with
  | EmptyString => EmptyString
  | String c s' =>
      String (if previous_is_cased then lower_char c else upper_char c)
             (title_go (is_cased c) s')
  end.

Definition title (s : string) : string := title_go false s.

Fixpoint lstrip (s : string) : string :=
  match s with
  | EmptyString => EmptyString
  | String c s' => if is_space c then lstrip s' else s
  end.

Definition rstrip (s : string) : string :=
  String.rev (lstrip (String.rev s)).

(** [s.strip()] *)
Definition strip (s : string) : string := rstrip (lstrip s).

(** [sub in s] *)
Fixpoint contains (sub s : string) : bool :=
  String.prefix sub s
  || match s with
     | EmptyString => false
     | String _ s' => contains sub s'
     end.

(** [s.replace(old, new)] for a non-empty [old]: the occurrences of [old]
    are found from the left and do not overlap; [skip] counts the
    characters of the occurrence just replaced that are still to pass. *)
Fixpoint replace_go (old new s : string) (skip : nat) : string :=
  match s with
  | EmptyString => EmptyString
  | String c s' =>
      match skip with
      | S k => replace_go old new s' k
      | O =>
          if String.prefix old s
          then new +:+ replace_go old new s' (String.length old - 1)
          else String c (replace_go old new s' 0)
      end
  end.

(** [s.replace("", new)] puts [new] before every character and at the
    end. *)
Fixpoint intersperse (new s : string) : string :=
  match s with
  | EmptyString => new
  | String c s' => new +:+ String c (intersperse new s')
  end.

Definition replace (s old new : string) : string :=
  match old with
  | EmptyString => intersperse new s
  | _ => replace_go old new s 0
  end.

(** [c.isdigit()] below 256: 0-9 and the superscripts 1, 2, 3. *)
Definition is_digit_char (c : ascii) : bool :=
  let n := code c in
  ((48 <=? n) && (n <=? 57)) || (n =? 178) || (n =? 179) || (n =? 185).

Fixpoint all_chars (p : ascii -> bool) (s : string) : bool :=
  match s with
  | EmptyString => true
  | String c s' => p c && all_chars p s'
  end.

(** [s.isdigit()]: false on the empty string. *)
Definition isdigit (s : string) : bool :=
  match s with
  | EmptyString => false
  | _ => all_chars is_digit_char s
  end.

End PyStr.

(** ** Values shared by the two programs *)

(** A number as Python holds it before numpy sees it. *)
Inductive num : Type :=
  | Int (z : Z)
  | Float (x : spec_float).

(** The content of [mappings.json]: the two dictionaries of encodings. *)
Record table : Type := {
  brands : gmap string num;
  models : gmap string num
}.

(** [numpy.expm1] *)
Definition expm1 (x : R) : R := (exp x - 1)%R.

(** [sorted(l)] on strings: the order of the code points. *)
Definition sorted (l : list string) : list string :=
  merge_sort String.le l.

(** [d.keys()], in some order. *)
Definition keys (d : gmap string num) : list string :=
  (map_to_list d).*1.

(** ** predict.py *)

Module Predict.

(** Fallback logic: estimates kW based on engine size if power is
    unknown. *)
Definition estimate_kw_from_engine
    (engine_size : spec_float) (fuel_type : string) : Z :=
  if PyStr.contains "diesel" (PyStr.lower fuel_type) then
    if F64.leb engine_size F64.f1_5 then 75
    else if F64.leb engine_size F64.f2_0 then 110
    else 140
  else
    if F64.leb engine_size F64.f1_2 then 60
    else if F64.leb engine_size F64.f1_6 then 92
    else if F64.leb engine_size F64.f2_0 then 132
    else 184.

(** [int(kw * 1.36)] and [int(hp / 1.36)] *)
Definition hp_of_kw (kw : Z) : option Z :=
  F64.int_mul kw F64.f1_36 ≫= F64.to_int.

Definition kw_of_hp (hp : Z) : option Z :=
  F64.int_div hp F64.f1_36 ≫= F64.to_int.

(** The console: the lines still to be read; a computation reads lines
    and either returns or raises. *)
Definition io (A : Type) : Type := list string -> option (A * list string).

Global Instance io_ret : MRet io := fun A a ins => Some (a, ins).

Global Instance io_bind : MBind io := fun A B k c ins =>
  match c ins with
  | Some (a, ins') => k a ins'
  | None => None
  end.

(** [input(prompt)]: the next line, [EOFError] when there is none. *)
Definition input : io string :=
  fun ins =>
    match ins with
    | line :: ins' => Some (line, ins')
    | [] => None
    end.

(** A call that returns or raises. *)
Definition try_ {A} (o : option A) : io A :=
  fun ins =>
    match o with
    | Some a => Some (a, ins)
    | None => None
    end.

(** What one run of [get_prediction] has computed when it reaches the
    results output. *)
Record valuation : Type := {
  available_models : list string;
  display_names : list string;
  full_model_name : string;
  kw : Z;
  hp : Z;
  tech_vector : list num;
  brand_vector : list (option num);
  cond : spec_float;
  price : option R
}.

Definition flag (b : bool) : Z := if b then 1 else 0.

Section get_prediction.

(** The builtins [int] and [float] on a string, and the two loaded
    models with their [predict]. *)
Variable py_int : string -> option Z.
Variable py_float : string -> option spec_float.
Variable m_tech : list num -> R.
Variable m_brand : list (option num) -> R.
Variable mappings : option table.

(** Lines 53-54: the keys of the models that contain the brand. *)
Definition search (brand_key : string) : list string :=
  match mappings with
  | Some mp =>
      sorted (filter (fun m => PyStr.contains brand_key m = true)
                     (keys (models mp)))
  | None => []
  end.

(** Line 59 *)
Definition display_name (brand_key m : string) : string :=
  PyStr.title (PyStr.strip (PyStr.replace m brand_key "")).

(** Lines 56-75: the model is chosen by its number in the list or by
    its name. *)
Definition select_model (brand_key : string) (available : list string)
    : io string :=
  match available, mappings with
  | _ :: _, Some mp =>
      line ← input;
      let model_choice := PyStr.lower (PyStr.strip line) in
      if PyStr.isdigit model_choice then
        n ← try_ (py_int model_choice);
        if (1 <=? n) && (n <=? Z.of_nat (length available)) then
          try_ (available !! Z.to_nat (n - 1))
        else if decide (is_Some
                  (models mp !! (brand_key +:+ " " +:+ model_choice)))
        then mret (brand_key +:+ " " +:+ model_choice)
        else mret model_choice
      else if decide (is_Some
                (models mp !! (brand_key +:+ " " +:+ model_choice)))
      then mret (brand_key +:+ " " +:+ model_choice)
      else mret model_choice
  | _, _ =>
      line ← input;
      mret (PyStr.lower (PyStr.strip line))
  end.

(** Lines 86-95 *)
Definition power (kw_input hp_input : string)
    (engine : spec_float) (fuel : string) : option (Z * Z) :=
  if negb (String.eqb kw_input "") then
    kw ← py_int kw_input;
    hp ← hp_of_kw kw;
    Some (kw, hp)
  else if negb (String.eqb hp_input "") then
    hp ← py_int hp_input;
    kw ← kw_of_hp hp;
    Some (kw, hp)
  else
    let kw := estimate_kw_from_engine engine fuel in
    hp ← hp_of_kw kw;
    Some (kw, hp).

(** Lines 102-105 *)
Definition lookup (brand_key full_model_name : string)
    : option num * option num :=
  match mappings with
  | Some mp => (brands mp !! brand_key, models mp !! full_model_name)
  | None => (None, None)
  end.

(** Lines 107-110: a code that was not found is asked for. *)
Definition or_manual (enc : option num) : io (option num) :=
  match enc with
  | None =>
      line ← input;
      x ← try_ (py_float line);
      mret (Some (Float x))
  | Some _ => mret enc
  end.

(** Lines 113-123 *)
Definition build_tech_vector (year kw hp km : Z) (engine : spec_float)
    (trans fuel : string) : list num :=
  let is_auto := flag (String.eqb trans "automatic") in
  let is_manual := flag (String.eqb trans "manual") in
  let is_diesel := flag (String.eqb fuel "diesel") in
  let is_petrol := flag (String.eqb fuel "petrol") in
  let is_hybrid := flag (String.eqb fuel "hybrid") in
  let is_cng := flag (String.eqb fuel "cng") in
  let is_lpg := flag (String.eqb fuel "lpg") in
  let is_electric := flag (String.eqb fuel "electric") in
  [Int year; Int kw; Int hp; Int km; Float engine;
   Int is_auto; Int is_manual; Int is_cng; Int is_diesel;
   Int is_electric; Int is_hybrid; Int is_lpg; Int is_petrol].

(** Lines 127-130 *)
Definition combine (log_base log_brand cond : R) : R :=
  (expm1 (log_base + log_brand) * cond)%R.

Definition get_prediction : io valuation :=
  line ← input;
  let brand := PyStr.strip line in
  let brand_key := PyStr.lower brand in
  let available_models := search brand_key in
  let shown := display_name brand_key <$> available_models in
  full_model_name ← select_model brand_key available_models;
  line ← input;
  year ← try_ (py_int line);
  line ← input;
  engine ← try_ (py_float line);
  line ← input;
  let fuel := PyStr.lower (PyStr.strip line) in
  line ← input;
  let kw_input := PyStr.strip line in
  line ← input;
  let hp_input := PyStr.strip line in
  '(kw, hp) ← try_ (power kw_input hp_input engine fuel);
  line ← input;
  km ← try_ (py_int line);
  line ← input;
  let trans := PyStr.lower (PyStr.strip line) in
  line ← input;
  cond ← try_ (py_float line);
  let '(b_enc, m_enc) := lookup brand_key full_model_name in
  b_enc ← or_manual b_enc;
  m_enc ← or_manual m_enc;
  let tech_vector := build_tech_vector year kw hp km engine trans fuel in
  let brand_vector := [b_enc; m_enc] in
  let log_base := m_tech tech_vector in
  let log_brand := m_brand brand_vector in
  let price := combine log_base log_brand <$> F64.to_R cond in
  mret {| available_models := available_models;
         display_names := shown;
         full_model_name := full_model_name;
         kw := kw; hp := hp;
         tech_vector := tech_vector;
         brand_vector := brand_vector;
         cond := cond;
         price := price |}.

End get_prediction.

End Predict.

(** ** app.py *)

Module App.

(** Fallback logic if power is not provided. *)
Definition estimate_kw_from_engine
    (engine_size : spec_float) (fuel_type : string) : Z :=
  if PyStr.contains "diesel" (PyStr.lower fuel_type) then
    if F64.leb engine_size F64.f1_5 then 75
    else if F64.leb engine_size F64.f2_0 then 110
    else 140
  else
    if F64.leb engine_size F64.f1_2 then 60
    else if F64.leb engine_size F64.f1_6 then 92
    else if F64.leb engine_size F64.f2_0 then 132
    else 184.

(** The values of the widgets of the sidebar and of the button. The two
    select boxes return the position of the chosen entry. *)
Record widgets : Type := {
  brand_choice : nat;
  model_idx : nat;
  year : Z;
  engine : spec_float;
  fuel : string;
  trans : string;
  km_input_val : Z;
  cond_input_val : spec_float;
  kw_input : Z;
  hp_input : Z;
  button : bool
}.

(** What the page has computed when it shows the price. *)
Record valuation : Type := {
  selected_brand : string;
  available_models : list string;
  display_models : list string;
  full_model_name : string;
  kw : Z;
  hp : Z;
  tech_vector : list num;
  brand_vector : list (option num);
  final_price : option R
}.

(** Lines 85-93 *)
Definition power (kw_input hp_input : Z)
    (engine : spec_float) (fuel : string) : option (Z * Z) :=
  if 0 <? kw_input then
    let kw := kw_input in
    hp ← (F64.int_mul kw F64.f1_36 ≫= F64.to_int);
    Some (kw, hp)
  else if 0 <? hp_input then
    let hp := hp_input in
    kw ← (F64.int_div hp F64.f1_36 ≫= F64.to_int);
    Some (kw, hp)
  else
    let kw := estimate_kw_from_engine engine fuel in
    hp ← (F64.int_mul kw F64.f1_36 ≫= F64.to_int);
    Some (kw, hp).

(** Line 108: the dictionary of the six fuel flags. *)
Definition f_dict (fuel : string) : gmap string Z :=
  list_to_map
    ((fun f => (f, if String.eqb fuel f then 1 else 0)) <$>
     ["cng"; "diesel"; "electric"; "hybrid"; "lpg"; "petrol"]).

(** Lines 106-113 *)
Definition build_tech_vector (year kw hp km_input_val : Z)
    (engine : spec_float) (trans fuel : string) : option (list num) :=
  let is_auto := if String.eqb trans "automatic" then 1 else 0 in
  let is_manual := if String.eqb trans "manual" then 1 else 0 in
  let f_dict := f_dict fuel in
  cng ← f_dict !! "cng";
  diesel ← f_dict !! "diesel";
  electric ← f_dict !! "electric";
  hybrid ← f_dict !! "hybrid";
  lpg ← f_dict !! "lpg";
  petrol ← f_dict !! "petrol";
  Some [Int year; Int kw; Int hp; Int km_input_val; Float engine;
        Int is_auto; Int is_manual;
        Int cng; Int diesel; Int electric;
        Int hybrid; Int lpg; Int petrol].

Section page.

Variable m_tech : list num -> R.
Variable m_brand : list (option num) -> R.
Variable mappings : table.

(** Line 57 *)
Definition brand_list : list string := sorted (keys (brands mappings)).

(** Line 61 *)
Definition search (selected_brand : string) : list string :=
  sorted (filter (fun m => PyStr.contains selected_brand m = true)
                 (keys (models mappings))).

(** Line 62 *)
Definition display (selected_brand m : string) : string :=
  PyStr.title (PyStr.strip (PyStr.replace m selected_brand "")).

(** One run of the script with the models and the mappings loaded:
    [None] when no price is shown (the button is not pressed, no model
    is selected, or an exception is reported). *)
Definition run (w : widgets) : option valuation :=
  label ← (PyStr.title <$> brand_list) !! brand_choice w;
  let selected_brand := PyStr.lower label in
  let available_models := search selected_brand in
  let display_models := display selected_brand <$> available_models in
  let full_model_name :=
    match available_models with
    | [] => None
    | _ => available_models !! model_idx w
    end in
  '(kw, hp) ← power (kw_input w) (hp_input w) (engine w) (fuel w);
  if button w then
    match full_model_name with
    | Some full_model_name =>
        if String.eqb full_model_name "" then None else
        let b_enc := brands mappings !! selected_brand in
        let m_enc := models mappings !! full_model_name in
        tech_vector ← build_tech_vector (year w) kw hp (km_input_val w)
                         (engine w) (trans w) (fuel w);
        let brand_vector := [b_enc; m_enc] in
        let log_base := m_tech tech_vector in
        let log_brand := m_brand brand_vector in
        let final_price :=
          (fun cond_input_val =>
             (expm1 (log_base + log_brand) * cond_input_val)%R)
          <$> F64.to_R (cond_input_val w) in
        Some {| selected_brand := selected_brand;
                available_models := available_models;
                display_models := display_models;
                full_model_name := full_model_name;
                kw := kw; hp := hp;
                tech_vector := tech_vector;
                brand_vector := brand_vector;
                final_price := final_price |}
    | None => None
    end
  else None.

End page.

End App.

(** ** The conversions as the specification words them *)

Module Spec.

(** "Horsepower is always derived from kW as round(kW * 1.36)" *)
Definition hp_of_kw (kw : Z) : option Z :=
  F64.int_mul kw F64.f1_36 ≫= F64.round.

(** "the inverse conversion kW = round(HP / 1.36)" *)
Definition kw_of_hp (hp : Z) : option Z :=
  F64.int_div hp F64.f1_36 ≫= F64.round.

End Spec.

(** ** Fixed-point squaring, to enclose values of the exponential *)

Module Fixed.






End Fixed.

(** ** Plain numerals, to run the programs on examples

    [int] and [float] are parameters of the console program. The two
    readers below agree with them on the plain numerals used in the
    examples: an optional minus sign and decimal digits, with for [float]
    at most one point and at most fifteen digits. *)

Module Numeral.

Definition digit (c : ascii) : option Z :=
  let n := Z.of_N (N_of_ascii c) in
  if (48 <=? n) && (n <=? 57) then Some (n - 48) else None.

(** The digits read so far are worth [acc]. *)
Fixpoint digits (acc : Z) (s : string) : option Z :=
  match s with
  | EmptyString => Some acc
  | String c s' => d ← digit c; digits (10 * acc + d) s'
  end.

Definition unsigned (s : string) : option Z :=
  match s with
  | EmptyString => None
  | _ => digits 0 s
  end.

Definition int (s : string) : option Z :=
  match s with
  | String "-" s' => Z.opp <$> unsigned s'
  | _ => unsigned s
  end.

(** [digits . digits]: the numerator and the power of ten under it. *)
Fixpoint fraction (num den : Z) (seen_point : bool) (s : string)
    : option (Z * Z) :=
  match s with
  | EmptyString => Some (num, den)
  | String "." s' =>
      if seen_point then None else fraction num den true s'
  | String c s' =>
      d ← digit c;
      fraction (10 * num + d) (if seen_point then 10 * den else den)
               seen_point s'
  end.

Definition unsigned_float (s : string) : option spec_float :=
  match s with
  | EmptyString | String "." EmptyString => None
  | _ => '(n, d) ← fraction 0 1 false s; Some (F64.literal n d)
  end.

Definition float (s : string) : option spec_float :=
  match s with
  | String "-" s' => SFopp <$> unsigned_float s'
  | _ => unsigned_float s
  end.

End Numeral.

(** An example of [mappings.json] and the lines typed in the scenario of
    the Ford Mondeo. *)
Definition demo_table : table :=
  {| brands := {[ "ford" := Int 3 ]};
     models := {[ "ford mondeo" := Int 7; "ford focus" := Int 5;
                  "audi a4" := Int 1 ]} |}.

Definition mondeo_lines : list string :=
  ["Ford"; "mondeo"; "2020"; "1.6"; "diesel"; ""; ""; "80000"; "manual";
   "0.85"].

(** ** The resources on disk and the two [load_resources] *)

(** What a program finds when it starts: for each of the two model files
    the object [joblib.load] returns, or [None] when it raises; for
    [mappings.json], [None] when the file does not exist, [Some None] when
    opening or decoding it raises, and the table otherwise. *)
Record disk (model : Type) : Type := {
  tech_model_pkl : option model;
  brand_model_pkl : option model;
  mappings_json : option (option table)
}.

Arguments tech_model_pkl {model} _.
Arguments brand_model_pkl {model} _.
Arguments mappings_json {model} _.

(** ** predict.py: the session *)

Module Console.

(** predict.py, lines 6-25: the two models and the mappings, or three
    times [None] as soon as anything raises. *)
Definition load_resources {model : Type} (d : disk model)
    : option model * option model * option table :=
  match tech_model_pkl d with
  | None => (None, None, None)
  | Some tech_model =>
      match brand_model_pkl d with
      | None => (None, None, None)
      | Some brand_model =>
          match mappings_json d with
          | None => (Some tech_model, Some brand_model, None)
          | Some None => (None, None, None)
          | Some (Some mappings) =>
              (Some tech_model, Some brand_model, Some mappings)
          end
      end
  end.

(** A statement of the console that completes with a value or raises, and
    in both cases leaves the lines it has not read. *)
Definition eio (A : Type) : Type := list string -> option A * list string.

Global Instance eio_ret : MRet eio := fun A a ins => (Some a, ins).

Global Instance eio_bind : MBind eio := fun A B k c ins =>
  match c ins with
  | (Some a, ins') => k a ins'
  | (None, ins') => (None, ins')
  end.

(** [input(prompt)] *)
Definition input : eio string :=
  fun ins =>
    match ins with
    | line :: ins' => (Some line, ins')
    | [] => (None, [])
    end.

(** A call that returns or raises, and reads nothing. *)
Definition try_ {A} (o : option A) : eio A := fun ins => (o, ins).

(** A part of [get_prediction] that reads at most one line and raises, if
    it does, with that line read: the choice of the model and the request
    of a code. *)
Definition reading_one {A} (c : Predict.io A) : eio A :=
  fun ins =>
    match c ins with
    | Some (a, ins') => (Some a, ins')
    | None => (None, tail ins)
    end.

(** The statement [e], which keeps the lines left when it raises, does
    what the statement [c] does: the same value and the same lines left
    when [c] returns, an exception when [c] raises, and in both cases the
    lines left are the last ones of those given. *)
Definition agrees {A} (c : Predict.io A) (e : eio A) : Prop :=
  forall ins,
    match c ins with
    | Some (a, rest) => e ins = (Some a, rest) /\ rest `suffix_of` ins
    | None => exists rest, e ins = (None, rest) /\ rest `suffix_of` ins
    end.


(** How [main] ends: it returns because the models are missing, it says
    goodbye, or the [EOFError] of its own [input] ends the program. *)
Inductive ending : Type :=
  | NoModels
  | Goodbye
  | EndOfInput.

(** What a session has done: the outcome of each call of
    [get_prediction] ([None] when the call reported an error), how it
    ended and the lines left unread. *)
Record session : Type := {
  valuations : list (option Predict.valuation);
  ended : ending;
  unread : list string
}.

Section session.

Variable py_int : string -> option Z.
Variable py_float : string -> option spec_float.
Variable m_tech : list num -> R.
Variable m_brand : list (option num) -> R.
Variable mappings : option table.

(** predict.py, lines 39-144: the body of [get_prediction] under its
    [try], with [None] for the error that the [except] reports. *)
Definition get_prediction : eio Predict.valuation :=
  line ← input;
  let brand := PyStr.strip line in
  let brand_key := PyStr.lower brand in
  let available_models := Predict.search mappings brand_key in
  let shown := Predict.display_name brand_key <$> available_models in
  full_model_name ←
    reading_one (Predict.select_model py_int mappings brand_key
                   available_models);
  line ← input;
  year ← try_ (py_int line);
  line ← input;
  engine ← try_ (py_float line);
  line ← input;
  let fuel := PyStr.lower (PyStr.strip line) in
  line ← input;
  let kw_input := PyStr.strip line in
  line ← input;
  let hp_input := PyStr.strip line in
  '(kw, hp) ← try_ (Predict.power py_int kw_input hp_input engine fuel);
  line ← input;
  km ← try_ (py_int line);
  line ← input;
  let trans := PyStr.lower (PyStr.strip line) in
  line ← input;
  cond ← try_ (py_float line);
  let '(b_enc, m_enc) :=
    Predict.lookup mappings brand_key full_model_name in
  b_enc ← reading_one (Predict.or_manual py_float b_enc);
  m_enc ← reading_one (Predict.or_manual py_float m_enc);
  let tech_vector :=
    Predict.build_tech_vector year kw hp km engine trans fuel in
  let brand_vector := [b_enc; m_enc] in
  let log_base := m_tech tech_vector in
  let log_brand := m_brand brand_vector in
  let price := Predict.combine log_base log_brand <$> F64.to_R cond in
  mret {| Predict.available_models := available_models;
          Predict.display_names := shown;
          Predict.full_model_name := full_model_name;
          Predict.kw := kw; Predict.hp := hp;
          Predict.tech_vector := tech_vector;
          Predict.brand_vector := brand_vector;
          Predict.cond := cond;
          Predict.price := price |}.

(** predict.py, lines 153-159: the loop of [main]. Each turn reads at
    least the answer, so [fuel] above the number of lines is never used
    up. *)
Fixpoint loop (fuel : nat) (ins : list string) : option session :=
  match fuel with
  | O => None
  | S fuel' =>
      let '(outcome, ins1) := get_prediction ins in
      match ins1 with
      | [] =>
          Some {| valuations := [outcome]; ended := EndOfInput;
                  unread := [] |}
      | line :: ins2 =>
          let choice := PyStr.lower (PyStr.strip line) in
          if String.eqb choice "y" then
            s ← loop fuel' ins2;
            Some {| valuations := outcome :: valuations s;
                    ended := ended s; unread := unread s |}
          else
            Some {| valuations := [outcome]; ended := Goodbye;
                    unread := ins2 |}
      end
  end.

End session.

(** predict.py, lines 146-159 *)
Definition main {model : Type} (predict_tech : model -> list num -> R)
    (predict_brand : model -> list (option num) -> R)
    (py_int : string -> option Z) (py_float : string -> option spec_float)
    (d : disk model) (ins : list string) : option session :=
  let '(m_tech, m_brand, mappings) := load_resources d in
  match m_tech, m_brand with
  | Some m_tech, Some m_brand =>
      loop py_int py_float (predict_tech m_tech) (predict_brand m_brand)
        mappings (S (length ins)) ins
  | _, _ => Some {| valuations := []; ended := NoModels; unread := ins |}
  end.

End Console.

(** ** app.py: the page *)

Module Page.

(** The third value [load_resources] returns: [None], the text of the
    exception, or the table. *)
Inductive mappings_value : Type :=
  | PyNone
  | ErrorText
  | Mappings (mappings : table).

(** app.py, lines 17-28 *)
Definition load_resources {model : Type} (d : disk model)
    : option model * option model * mappings_value :=
  match tech_model_pkl d with
  | None => (None, None, ErrorText)
  | Some tech_model =>
      match brand_model_pkl d with
      | None => (None, None, ErrorText)
      | Some brand_model =>
          match mappings_json d with
          | None => (Some tech_model, Some brand_model, PyNone)
          | Some None => (None, None, ErrorText)
          | Some (Some mappings) =>
              (Some tech_model, Some brand_model, Mappings mappings)
          end
      end
  end.

(** What the page shows: the critical error of line 50, or the form with,
    when there is one, the valuation. *)
Inductive shown : Type :=
  | CriticalError
  | Form (result : option App.valuation).

(** app.py, lines 43-136 *)
Definition script {model : Type} (predict_tech : model -> list num -> R)
    (predict_brand : model -> list (option num) -> R)
    (d : disk model) (w : App.widgets) : shown :=
  let '(m_tech, m_brand, mappings) := load_resources d in
  match m_tech, m_brand, mappings with
  | Some m_tech, Some m_brand, Mappings mappings =>
      Form (App.run (predict_tech m_tech) (predict_brand m_brand)
              mappings w)
  | _, _, _ => CriticalError
  end.

End Page.

(** * Properties *)

(** ** Substrings *)

Lemma append_cons (c : ascii) (s t : string) :
  String c s +:+ t = String c (s +:+ t).
Proof. reflexivity. Qed.

Lemma append_empty (t : string) : "" +:+ t = t.
Proof. reflexivity. Qed.

Lemma prefix_app (p s : string) :
  String.prefix p s = true <-> exists t, s = p +:+ t.
Proof.
  revert s. induction p as [|a p IH]; intros s; simpl.
  - destruct s; split; eauto.
  - destruct s as [|b s]; simpl.
    + split; [discriminate | intros [t Ht]; discriminate].
    + destruct (ascii_dec a b) as [->|Hab].
      * rewrite IH. split; intros [t Ht]; exists t.
        -- rewrite append_cons. congruence.
        -- rewrite append_cons in Ht. congruence.
      * split; [discriminate | intros [t Ht]].
        rewrite append_cons in Ht. congruence.
Qed.

Lemma contains_nil (sub : string) :
  PyStr.contains sub "" = String.prefix sub "".
Proof. simpl. apply orb_false_r. Qed.

Lemma contains_cons (sub : string) (c : ascii) (s : string) :
  PyStr.contains sub (String c s)
  = String.prefix sub (String c s) || PyStr.contains sub s.
Proof. reflexivity. Qed.

(** [sub in s] holds exactly when [s] is [pre + sub + post]. *)
Lemma contains_app (sub s : string) :
  PyStr.contains sub s = true <-> exists pre post, s = pre +:+ sub +:+ post.
Proof.
  induction s as [|c s IH].
  - rewrite contains_nil, prefix_app. split.
    + intros [t Ht]. exists "", t. exact Ht.
    + intros [pre [post H]]. destruct pre; [eauto | discriminate].
  - rewrite contains_cons, orb_true_iff, prefix_app, IH. split.
    + intros [[t Ht] | [pre [post H]]].
      * exists "", t. exact Ht.
      * exists (String c pre), post. rewrite append_cons. congruence.
    + intros [pre [post H]]. destruct pre as [|c' pre].
      * left. eauto.
      * right. exists pre, post. rewrite append_cons in H. congruence.
Qed.

(** ** The fallback power estimator *)

Lemma estimate_kw_cases (engine : spec_float) (fuel : string) :
  let kw := Predict.estimate_kw_from_engine engine fuel in
  if PyStr.contains "diesel" (PyStr.lower fuel) then
    if F64.leb engine F64.f1_5 then kw = 75
    else if F64.leb engine F64.f2_0 then kw = 110 else kw = 140
  else
    if F64.leb engine F64.f1_2 then kw = 60
    else if F64.leb engine F64.f1_6 then kw = 92
    else if F64.leb engine F64.f2_0 then kw = 132 else kw = 184.
Proof.
  unfold Predict.estimate_kw_from_engine.
  repeat (destruct (_ : bool); try reflexivity).
Qed.



(** [x <= a] against a positive finite bound. *)
Lemma leb_finite_pos (x : spec_float) (ma : positive) (ea : Z) :
  F64.leb x (S754_finite false ma ea) = true <->
  match x with
  | S754_zero _ => True
  | S754_infinity s => s = true
  | S754_nan => False
  | S754_finite true _ _ => True
  | S754_finite false mx ex => ex < ea \/ (ex = ea /\ (mx <= ma)%positive)
  end.
Proof.
  unfold F64.leb, SFleb, SFcompare.
  destruct x as [s|s| |s mx ex].
  - tauto.
  - destruct s; split; congruence.
  - split; [discriminate | tauto].
  - destruct s; [tauto|].
    change (PosDef.Pos.compare_cont Eq mx ma) with (Pos.compare mx ma).
    destruct (Z.compare_spec ex ea) as [He|He|He].
    + destruct (Pos.compare_spec mx ma) as [Hm|Hm|Hm];
        split; try discriminate; try tauto; try lia.
    + split; [lia | reflexivity].
    + split; [discriminate | lia].
Qed.






(** C10. The estimator of the console program and the estimator of the
    web page return the same kW for every engine displacement and every
    fuel string. *)
Theorem estimate_kw_same_in_both (engine : spec_float) (fuel : string) :
  Predict.estimate_kw_from_engine engine fuel
  = App.estimate_kw_from_engine engine fuel.
Proof.
  unfold Predict.estimate_kw_from_engine, App.estimate_kw_from_engine.
  destruct (PyStr.contains "diesel" (PyStr.lower fuel));
    repeat (destruct (F64.leb engine _)); reflexivity.
Qed.

(** ** The technical feature vector *)

Lemma f_dict_lookup (fuel f : string) :
  f ∈ ["cng"; "diesel"; "electric"; "hybrid"; "lpg"; "petrol"] ->
  App.f_dict fuel !! f = Some (if String.eqb fuel f then 1 else 0).
Proof.
  intros Hf. unfold App.f_dict.
  apply elem_of_list_to_map.
  - rewrite <- list_fmap_compose.
    apply (bool_decide_unpack _). vm_compute. reflexivity.
  - apply list_elem_of_fmap. exists f. split; [reflexivity | exact Hf].
Qed.

Lemma app_build_tech_vector (year kw hp km : Z) (engine : spec_float)
    (trans fuel : string) :
  App.build_tech_vector year kw hp km engine trans fuel
  = Some (Predict.build_tech_vector year kw hp km engine trans fuel).
Proof.
  unfold App.build_tech_vector.
  rewrite !f_dict_lookup
    by (rewrite !elem_of_cons; repeat ((left; reflexivity) || right)).
  reflexivity.
Qed.

(** Case analysis on every string comparison of the goal. *)
Ltac string_cases :=
  repeat match goal with
         | |- context [String.eqb ?s ?t] =>
             destruct (String.eqb_spec s t); subst; try discriminate
         end.

(** C9. In the technical vector of either program each flag is 0 or 1 and
    is 1 exactly when its own string is the value it stands for, so that at
    most one transmission flag and at most one fuel flag is 1; the
    transmission flags are decided by the transmission string alone and the
    fuel flags by the fuel string alone, and a transmission string that is
    neither "automatic" nor "manual" leaves both transmission flags at 0. *)
Theorem flags_one_hot (year kw hp km : Z) (engine : spec_float)
    (trans fuel : string) :
  exists a m c d e h l p : Z,
    Predict.build_tech_vector year kw hp km engine trans fuel
      = [Int year; Int kw; Int hp; Int km; Float engine;
         Int a; Int m; Int c; Int d; Int e; Int h; Int l; Int p]
    /\ App.build_tech_vector year kw hp km engine trans fuel
      = Some [Int year; Int kw; Int hp; Int km; Float engine;
              Int a; Int m; Int c; Int d; Int e; Int h; Int l; Int p]
    /\ Forall (fun z => z = 0 \/ z = 1) [a; m; c; d; e; h; l; p]
    /\ (a = 1 <-> trans = "automatic") /\ (m = 1 <-> trans = "manual")
    /\ (c = 1 <-> fuel = "cng") /\ (d = 1 <-> fuel = "diesel")
    /\ (e = 1 <-> fuel = "electric") /\ (h = 1 <-> fuel = "hybrid")
    /\ (l = 1 <-> fuel = "lpg") /\ (p = 1 <-> fuel = "petrol")
    /\ a + m <= 1
    /\ c + d + e + h + l + p <= 1
    /\ (trans <> "automatic" -> trans <> "manual" -> a = 0 /\ m = 0).
Proof.
  eexists _, _, _, _, _, _, _, _.
  split; [reflexivity|].
  split; [apply app_build_tech_vector|].
  unfold Predict.flag. string_cases;
    (split; [repeat (apply List.Forall_cons; [lia|]); apply List.Forall_nil|]);
    repeat split; intros; try lia; try congruence; try reflexivity.
Qed.

(** ** The scenario of the Ford Mondeo *)

(** C4 as stated fails: the horsepower of the scenario is 149, and the
    vector of the run is not the one with 150. *)
Lemma mondeo_vector_has_149_not_150 :
  Predict.hp_of_kw (Predict.estimate_kw_from_engine F64.f1_6 "diesel")
    = Some 149
  /\ Spec.hp_of_kw 110 = Some 150
  /\ Predict.tech_vector <$>
       (fst <$> Predict.get_prediction Numeral.int Numeral.float
                  (fun _ => 0%R) (fun _ => 0%R) (Some demo_table)
                  mondeo_lines)
     <> Some [Int 2020; Int 110; Int 150; Int 80000; Float F64.f1_6;
              Int 0; Int 1; Int 0; Int 1; Int 0; Int 0; Int 0; Int 0].
Proof.
  split; [vm_compute; reflexivity|].
  split; [vm_compute; reflexivity|].
  vm_compute. discriminate.
Qed.

(** C4, amended. For brand "Ford", model "mondeo", year 2020, engine 1.6,
    fuel "diesel", transmission "manual", mileage 80000, condition 0.85 and
    no power given, the estimate is 110 kW, the horsepower is
    int(110 * 1.36) = 149, and the technical vector is
    [2020, 110, 149, 80000, 1.6, 0, 1, 0, 1, 0, 0, 0, 0]. *)
Theorem mondeo_scenario (m_tech : list num -> R)
    (m_brand : list (option num) -> R) :
  Predict.estimate_kw_from_engine F64.f1_6 "diesel" = 110
  /\ Predict.power Numeral.int "" "" F64.f1_6 "diesel" = Some (110, 149)
  /\ exists v rest,
       Predict.get_prediction Numeral.int Numeral.float m_tech m_brand
         (Some demo_table) mondeo_lines = Some (v, rest)
       /\ Predict.full_model_name v = "ford mondeo"
       /\ Predict.kw v = 110 /\ Predict.hp v = 149
       /\ Predict.tech_vector v
          = [Int 2020; Int 110; Int 149; Int 80000; Float F64.f1_6;
             Int 0; Int 1; Int 0; Int 1; Int 0; Int 0; Int 0; Int 0]
       /\ Predict.brand_vector v = [Some (Int 3); Some (Int 7)].
Proof.
  split; [vm_compute; reflexivity|].
  split; [vm_compute; reflexivity|].
  destruct (Predict.get_prediction Numeral.int Numeral.float m_tech m_brand
              (Some demo_table) mondeo_lines) as [[v rest]|] eqn:Hrun.
  - exists v, rest. split; [reflexivity|].
    assert (Hv : Some v = fst <$>
              Predict.get_prediction Numeral.int Numeral.float m_tech
                m_brand (Some demo_table) mondeo_lines)
      by (rewrite Hrun; reflexivity).
    clear Hrun.
    assert (Hp : forall {A} (f : Predict.valuation -> A) (a : A),
              f <$> (fst <$>
                Predict.get_prediction Numeral.int Numeral.float m_tech
                  m_brand (Some demo_table) mondeo_lines) = Some a ->
              f v = a).
    { intros A f a. rewrite <- Hv. simpl. congruence. }
    repeat split; apply Hp; vm_compute; reflexivity.
  - exfalso.
    assert (Hn : is_Some (Predict.get_prediction Numeral.int Numeral.float
                m_tech m_brand (Some demo_table) mondeo_lines)).
    { apply (bool_decide_unpack _). vm_compute. reflexivity. }
    rewrite Hrun in Hn. destruct Hn as [x Hx]. discriminate.
Qed.

(** ** The price *)

Section exp_bounds.

Local Open Scope R_scope.













End exp_bounds.

(** ** Runs of the two programs *)

Lemma bind_Some {A B} (c : Predict.io A) (k : A -> Predict.io B)
    (ins : list string) (r : B * list string) :
  (c ≫= k) ins = Some r ->
  exists a ins', c ins = Some (a, ins') /\ k a ins' = Some r.
Proof.
  unfold mbind, Predict.io_bind. destruct (c ins) as [[a ins']|]; [|discriminate].
  intros H. exists a, ins'. split; [reflexivity | exact H].
Qed.

Lemma try_Some {A} (o : option A) (ins : list string) (a : A)
    (ins' : list string) :
  Predict.try_ o ins = Some (a, ins') -> o = Some a /\ ins' = ins.
Proof. unfold Predict.try_. destruct o; [|discriminate]. intros [= -> ->]. tauto. Qed.

Lemma input_Some (ins : list string) (line : string) (ins' : list string) :
  Predict.input ins = Some (line, ins') -> ins = line :: ins'.
Proof. destruct ins; [discriminate|]. intros [= -> ->]. reflexivity. Qed.

Lemma ret_Some {A} (a b : A) (ins ins' : list string) :
  (mret a : Predict.io A) ins = Some (b, ins') -> b = a /\ ins' = ins.
Proof. intros [= -> ->]. tauto. Qed.

Ltac io_step H :=
  cbv zeta in H;
  match type of H with
  | (Predict.input ≫= _) _ = Some _ =>
      let l := fresh "line" in let i := fresh "ins" in
      let H1 := fresh "Hin" in
      apply bind_Some in H as (l & i & H1 & H);
      apply input_Some in H1; subst
  | (Predict.try_ _ ≫= _) _ = Some _ =>
      let a := fresh "a" in let i := fresh "ins" in
      let H1 := fresh "Htry" in
      apply bind_Some in H as (a & i & H1 & H);
      apply try_Some in H1 as [H1 ->]
  | (_ ≫= _) _ = Some _ =>
      let a := fresh "a" in let i := fresh "ins" in
      let H1 := fresh "Hrun" in
      apply bind_Some in H as (a & i & H1 & H)
  end.

Section run.
Variable py_int : string -> option Z.
Variable py_float : string -> option spec_float.
Variable m_tech : list num -> R.
Variable m_brand : list (option num) -> R.
Variable mappings : option table.

Lemma get_prediction_inv (ins : list string) (v : Predict.valuation)
    (rest : list string) :
  Predict.get_prediction py_int py_float m_tech m_brand mappings ins
    = Some (v, rest) ->
  exists l_brand ins1 ins2 l_year l_engine l_fuel l_kw l_hp l_km l_trans
         l_cond ins3 ins4 year engine km b m,
    let brand_key := PyStr.lower (PyStr.strip l_brand) in
    let fuel := PyStr.lower (PyStr.strip l_fuel) in
    let trans := PyStr.lower (PyStr.strip l_trans) in
    let enc := Predict.lookup mappings brand_key (Predict.full_model_name v) in
    ins = l_brand :: ins1
    /\ Predict.available_models v = Predict.search mappings brand_key
    /\ Predict.display_names v
       = Predict.display_name brand_key <$> Predict.available_models v
    /\ Predict.select_model py_int mappings brand_key
         (Predict.search mappings brand_key) ins1
       = Some (Predict.full_model_name v, ins2)
    /\ ins2 = l_year :: l_engine :: l_fuel :: l_kw :: l_hp :: l_km
              :: l_trans :: l_cond :: ins3
    /\ py_int l_year = Some year
    /\ py_float l_engine = Some engine
    /\ Predict.power py_int (PyStr.strip l_kw) (PyStr.strip l_hp) engine fuel
       = Some (Predict.kw v, Predict.hp v)
    /\ py_int l_km = Some km
    /\ py_float l_cond = Some (Predict.cond v)
    /\ Predict.or_manual py_float enc.1 ins3 = Some (b, ins4)
    /\ Predict.or_manual py_float enc.2 ins4 = Some (m, rest)
    /\ Predict.tech_vector v
       = Predict.build_tech_vector year (Predict.kw v) (Predict.hp v) km
           engine trans fuel
    /\ Predict.brand_vector v = [b; m]
    /\ Predict.price v
       = Predict.combine (m_tech (Predict.tech_vector v))
           (m_brand (Predict.brand_vector v)) <$> F64.to_R (Predict.cond v).
Proof.
  unfold Predict.get_prediction. intros H.
  do 2 io_step H.
  do 8 io_step H.
  destruct a2 as [kw hp].
  do 5 io_step H.
  destruct (Predict.lookup _ _ _) as [b_enc m_enc] eqn:Hl.
  do 2 io_step H.
  apply ret_Some in H as [-> ->]. simpl.
  repeat eexists; try eassumption; try reflexivity; rewrite ?Hl; simpl;
    eassumption.
Qed.
End run.

(** What a run of the web page that shows a price has computed. *)
Lemma app_run_inv (m_tech : list num -> R) (m_brand : list (option num) -> R)
    (mp : table) (w : App.widgets) (v : App.valuation) :
  App.run m_tech m_brand mp w = Some v ->
  exists b,
    App.brand_list mp !! App.brand_choice w = Some b
    /\ App.selected_brand v = PyStr.lower (PyStr.title b)
    /\ App.available_models v = App.search mp (App.selected_brand v)
    /\ App.display_models v
       = App.display (App.selected_brand v) <$> App.available_models v
    /\ App.available_models v !! App.model_idx w
       = Some (App.full_model_name v)
    /\ App.full_model_name v <> ""
    /\ App.power (App.kw_input w) (App.hp_input w) (App.engine w)
         (App.fuel w) = Some (App.kw v, App.hp v)
    /\ App.brand_vector v
       = [brands mp !! App.selected_brand v;
          models mp !! App.full_model_name v].
Proof.
  unfold App.run. rewrite list_lookup_fmap.
  destruct (App.brand_list mp !! App.brand_choice w) as [b|];
    [|discriminate]. simpl.
  destruct (App.power _ _ _ _) as [[kw hp]|]; [|discriminate]. simpl.
  destruct (App.button w); [|discriminate].
  destruct (App.search mp (PyStr.lower (PyStr.title b))) as [|m0 ms] eqn:Hs;
    [discriminate|].
  destruct ((m0 :: ms) !! App.model_idx w) as [name|] eqn:Hn; [|discriminate].
  destruct (String.eqb_spec name ""); [discriminate|].
  destruct (App.build_tech_vector _ _ _ _ _ _ _) as [tv|]; [|discriminate].
  simpl. intros [= <-]. simpl. exists b. rewrite Hs. repeat split; auto.
Qed.

(** ** The combiner *)





(** ** The search of the models of a brand *)

Lemma elem_of_keys (d : gmap string num) (m : string) :
  m ∈ keys d <-> is_Some (d !! m).
Proof.
  unfold keys. rewrite list_elem_of_fmap. split.
  - intros [[k x] [-> Hk]]. apply elem_of_map_to_list in Hk. simpl. eauto.
  - intros [x Hx]. exists (m, x). split; [reflexivity|].
    now apply elem_of_map_to_list.
Qed.

Lemma elem_of_sorted (l : list string) (m : string) : m ∈ sorted l <-> m ∈ l.
Proof. unfold sorted. now rewrite merge_sort_Permutation. Qed.








Example search_ford :
  Predict.search (Some demo_table) "ford" = ["ford focus"; "ford mondeo"]
  /\ Predict.display_name "ford" <$> Predict.search (Some demo_table) "ford"
     = ["Focus"; "Mondeo"]
  /\ Predict.search (Some demo_table) "a" = ["audi a4"].
Proof. repeat split; vm_compute; reflexivity. Qed.

(** ** The encodings *)

Section encodings.

Variable py_float : string -> option spec_float.

Lemma or_manual_Some (enc r : option num) (ins ins' : list string) :
  Predict.or_manual py_float enc ins = Some (r, ins') ->
  match enc with
  | Some c => r = Some c /\ ins' = ins
  | None =>
      exists line x,
        ins = line :: ins' /\ py_float line = Some x /\ r = Some (Float x)
  end.
Proof.
  destruct enc as [c|]; simpl.
  - intros [= <- <-]. tauto.
  - intros H. do 2 io_step H. apply ret_Some in H as [-> ->]. eauto.
Qed.

Lemma or_manual_None (enc : option num) (ins : list string) :
  Predict.or_manual py_float enc ins = None <->
  enc = None
  /\ match ins with
     | [] => True
     | line :: _ => py_float line = None
     end.
Proof.
  destruct enc as [c|]; simpl.
  - split; [discriminate | intros [? _]; discriminate].
  - destruct ins as [|line ins]; simpl; [tauto|].
    unfold mbind, Predict.io_bind, Predict.input, Predict.try_. simpl.
    destruct (py_float line); simpl; split; try tauto; try discriminate.
    intros [_ ?]; discriminate.
Qed.

End encodings.

(** Choosing the model reads one line. *)
Lemma select_model_reads_one (py_int : string -> option Z)
    (mappings : option table) (brand_key : string) (available : list string)
    (ins ins' : list string) (name : string) :
  Predict.select_model py_int mappings brand_key available ins
    = Some (name, ins') ->
  exists line, ins = line :: ins'.
Proof.
  unfold Predict.select_model. intros H.
  destruct available as [|m0 ms]; [|destruct mappings as [mp|]].
  - io_step H. apply ret_Some in H as [_ ->]. eauto.
  - io_step H. exists line.
    destruct (PyStr.isdigit _).
    + io_step H. destruct (_ && _).
      * apply try_Some in H as [_ ->]. reflexivity.
      * destruct (decide _); apply ret_Some in H as [_ ->]; reflexivity.
    + destruct (decide _); apply ret_Some in H as [_ ->]; reflexivity.
  - io_step H. apply ret_Some in H as [_ ->]. eauto.
Qed.

(** A table of the web page whose brand key is not in lower case: the brand
    code handed to the regressor is [None]. *)
Example app_needs_lower_case_keys :
  App.brand_vector <$>
    App.run (fun _ => 0%R) (fun _ => 0%R)
      {| brands := {[ "Ford" := Int 3 ]};
         models := {[ "ford focus" := Int 5 ]} |}
      {| App.brand_choice := 0; App.model_idx := 0; App.year := 2020;
         App.engine := F64.f1_6; App.fuel := "diesel";
         App.trans := "manual"; App.km_input_val := 80000;
         App.cond_input_val := F64.f1_5; App.kw_input := 0;
         App.hp_input := 0; App.button := true |}
  = Some [None; Some (Int 5)].
Proof. vm_compute. reflexivity. Qed.


(** A brand that the table does not have: the two codes are typed. *)
Example manual_codes_run :
  let run ins :=
    Predict.get_prediction Numeral.int Numeral.float
      (fun _ => 0%R) (fun _ => 0%R) (Some demo_table) ins in
  let typed := ["Tesla"; "model s"; "2022"; "0.0"; "electric"; "300"; "";
                "10000"; "automatic"; "0.9"] in
  Predict.brand_vector <$> (fst <$> run (typed ++ ["12.5"; "3.25"]))
    = Some [Some (Float (F64.literal 125 10));
            Some (Float (F64.literal 325 100))]
  /\ Predict.hp <$> (fst <$> run (typed ++ ["12.5"; "3.25"])) = Some 408
  /\ run (typed ++ ["unknown"; "3.25"]) = None
  /\ run typed = None.
Proof. repeat split; vm_compute; reflexivity. Qed.

(** The web page on the example table. *)
Example app_run_ford :
  let w := {| App.brand_choice := 0; App.model_idx := 1; App.year := 2020;
              App.engine := F64.f1_6; App.fuel := "diesel";
              App.trans := "manual"; App.km_input_val := 80000;
              App.cond_input_val := F64.literal 85 100; App.kw_input := 0;
              App.hp_input := 0; App.button := true |} in
  let shown {A} (f : App.valuation -> A) :=
    f <$> App.run (fun _ => 0%R) (fun _ => 0%R) demo_table w in
  shown App.selected_brand = Some "ford"
  /\ shown App.display_models = Some ["Focus"; "Mondeo"]
  /\ shown App.full_model_name = Some "ford mondeo"
  /\ shown App.tech_vector
     = Some [Int 2020; Int 110; Int 149; Int 80000; Float F64.f1_6;
             Int 0; Int 1; Int 0; Int 1; Int 0; Int 0; Int 0; Int 0]
  /\ shown App.brand_vector = Some [Some (Int 3); Some (Int 7)].
Proof. repeat split; vm_compute; reflexivity. Qed.

(** ** Rounding to binary64 *)

Lemma iter_pos_nat (A : Type) (f : A -> A) (p : positive) (x : A) :
  SpecFloat.iter_pos f p x = Nat.iter (Pos.to_nat p) f x.
Proof.
  revert x. induction p as [p IH|p IH|]; intros x;
    cbn [SpecFloat.iter_pos].
  - rewrite !IH, Pos2Nat.inj_xI, Nat.iter_succ_r.
    replace (2 * Pos.to_nat p)%nat with (Pos.to_nat p + Pos.to_nat p)%nat
      by lia.
    now rewrite Nat.iter_add.
  - rewrite !IH, Pos2Nat.inj_xO.
    replace (2 * Pos.to_nat p)%nat with (Pos.to_nat p + Pos.to_nat p)%nat
      by lia.
    now rewrite Nat.iter_add.
  - reflexivity.
Qed.

Lemma shr_1_nonneg (m : Z) (r s : bool) :
  0 <= m ->
  shr_1 {| shr_m := m; shr_r := r; shr_s := s |}
  = {| shr_m := m / 2; shr_r := Z.odd m; shr_s := r || s |}.
Proof.
  intros Hm. rewrite <- Z.div2_div.
  destruct m as [|p|p]; [reflexivity | | lia].
  destruct p; reflexivity.
Qed.

(** After [n] halvings the mantissa is the quotient by [2^n] and the round
    bit is the last bit dropped. *)
Lemma shr_iter (n : nat) (m : Z) (r s : bool) :
  0 <= m ->
  let mrs := Nat.iter (S n) shr_1 {| shr_m := m; shr_r := r; shr_s := s |} in
  shr_m mrs = m / 2 ^ Z.of_nat (S n)
  /\ shr_r mrs = Z.odd (m / 2 ^ Z.of_nat n).
Proof.
  intros Hm. induction n as [|n IH]; cbv zeta in *.
  - rewrite Nat.iter_succ. change (Nat.iter 0 shr_1 ?x) with x.
    rewrite shr_1_nonneg by exact Hm.
    cbn [shr_m shr_r]. change (2 ^ Z.of_nat 0) with 1.
    change (2 ^ Z.of_nat 1) with 2. rewrite Z.div_1_r. split; reflexivity.
  - destruct IH as [IHm IHr].
    rewrite Nat.iter_succ.
    destruct (Nat.iter (S n) shr_1 _) as [m' r' s'] eqn:E.
    cbn [shr_m shr_r] in IHm, IHr.
    assert (H0 : 0 <= m') by (rewrite IHm; apply Z.div_pos; lia).
    rewrite shr_1_nonneg by exact H0. cbn [shr_m shr_r]. rewrite IHm.
    split; [|reflexivity].
    rewrite Z.div_div by lia. f_equal.
    rewrite (Nat2Z.inj_succ (S n)), Z.pow_succ_r by lia. lia.
Qed.

Lemma digits2_bounds (p : positive) :
  2 ^ (Zpos (digits2_pos p) - 1) <= Zpos p < 2 ^ Zpos (digits2_pos p).
Proof.
  induction p as [p IH|p IH|]; cbn [digits2_pos].
  - rewrite Pos2Z.inj_succ, Z.pow_succ_r by lia.
    replace (Z.succ (Zpos (digits2_pos p)) - 1)
      with (Z.succ (Zpos (digits2_pos p) - 1)) by lia.
    rewrite Z.pow_succ_r by lia. lia.
  - rewrite Pos2Z.inj_succ, Z.pow_succ_r by lia.
    replace (Z.succ (Zpos (digits2_pos p)) - 1)
      with (Z.succ (Zpos (digits2_pos p) - 1)) by lia.
    rewrite Z.pow_succ_r by lia. lia.
  - change (2 ^ (1 - 1)) with 1. change (2 ^ 1) with 2. lia.
Qed.

Lemma digits2_unique (p : positive) (k : Z) :
  2 ^ (k - 1) <= Zpos p < 2 ^ k -> Zpos (digits2_pos p) = k.
Proof.
  intros [Hl Hu]. pose proof (digits2_bounds p) as [Dl Du].
  set (d := Zpos (digits2_pos p)) in *.
  assert (0 < k).
  { destruct (Z.ltb_spec 0 k) as [|Hk]; [assumption|].
    destruct (Z.eq_dec k 0) as [->|]; [simpl in Hu; lia|].
    rewrite Z.pow_neg_r in Hu by lia. lia. }
  destruct (Z.lt_trichotomy d k) as [Hlt|[Heq|Hgt]]; [|exact Heq|].
  - assert (2 ^ d <= 2 ^ (k - 1)) by (apply Z.pow_le_mono_r; lia). lia.
  - assert (2 ^ k <= 2 ^ (d - 1)) by (apply Z.pow_le_mono_r; lia). lia.
Qed.

(** Halving [n] times a mantissa that carries no rounding information. *)
Lemma shr_exact (m e : Z) (n : positive) :
  0 <= m ->
  exists mrs,
    shr (shr_record_of_loc m loc_Exact) e (Zpos n) = (mrs, e + Zpos n)
    /\ shr_m mrs = m / 2 ^ Zpos n
    /\ shr_r mrs = Z.odd (m / 2 ^ (Zpos n - 1)).
Proof.
  intros Hm. cbn [shr shr_record_of_loc]. rewrite iter_pos_nat.
  destruct (Pos2Nat.is_succ n) as [k Hk]. rewrite Hk.
  pose proof (shr_iter k m false false Hm) as [H1 H2].
  eexists. split; [reflexivity|].
  rewrite H1, H2. rewrite <- Hk, positive_nat_Z.
  split; [reflexivity|]. do 3 f_equal. lia.
Qed.

Lemma round_nearest_even_cases (mrs : shr_record) :
  let m := round_nearest_even (shr_m mrs) (loc_of_shr_record mrs) in
  m = shr_m mrs \/ (m = shr_m mrs + 1 /\ shr_r mrs = true).
Proof.
  destruct mrs as [m [|] [|]]; cbn; auto.
  destruct (Z.even m); auto.
Qed.

(** The last step of a rounding: a mantissa of 53 digits, or [2^53] after
    a carry, is stored; its integer part is that of [m1 * 2^e0]. *)
Lemma round_finish_to_int (sx : bool) (m1 e0 : Z) :
  2 ^ 52 <= m1 <= 2 ^ 53 -> -1074 <= e0 < 0 ->
  F64.to_int
    (let '(mrs, e) := shr_fexp 53 1024 m1 e0 loc_Exact in
     match shr_m mrs with
     | Z0 => S754_zero sx
     | Zpos m =>
         if e <=? 1024 - 53 then S754_finite sx m e else S754_infinity sx
     | Zneg _ => S754_nan
     end)
  = Some (cond_Zopp sx (m1 / 2 ^ (- e0))).
Proof.
  intros Hm He.
  change (2 ^ 52) with 4503599627370496 in Hm.
  change (2 ^ 53) with 9007199254740992 in Hm.
  destruct m1 as [|p|p]; try lia.
  unfold shr_fexp. cbn [Zdigits2].
  destruct (Z.eq_dec (Zpos p) 9007199254740992) as [Hc|Hc].
  - injection Hc as ->.
    change (Zpos (digits2_pos 9007199254740992)) with 54.
    unfold fexp, emin. rewrite Z.max_l by lia.
    replace (54 + e0 - 53 - e0) with 1 by lia.
    cbn [shr shr_record_of_loc SpecFloat.iter_pos shr_1 shr_m].
    destruct (Z.leb_spec (e0 + 1) (1024 - 53)) as [_|]; [|lia].
    cbn [F64.to_int]. do 2 f_equal.
    unfold F64.scale_trunc.
    destruct (e0 + 1) as [|q|q] eqn:Eq; try lia.
    + replace e0 with (-1) by lia. reflexivity.
    + rewrite Z.shiftr_div_pow2 by lia.
      replace (- e0) with (Z.succ (Zpos q)) by lia.
      rewrite Z.pow_succ_r by lia.
      change 9007199254740992 with (2 * 4503599627370496).
      rewrite Z.div_mul_cancel_l by lia. reflexivity.
  - assert (Hd : Zpos (digits2_pos p) = 53)
      by (apply digits2_unique;
          change (2 ^ (53 - 1)) with 4503599627370496;
          change (2 ^ 53) with 9007199254740992; lia).
    rewrite Hd. unfold fexp, emin. rewrite Z.max_l by lia.
    replace (53 + e0 - 53 - e0) with 0 by lia.
    cbn [shr shr_record_of_loc shr_m].
    destruct (Z.leb_spec e0 (1024 - 53)) as [_|]; [|lia].
    cbn [F64.to_int]. do 2 f_equal.
    unfold F64.scale_trunc. destruct e0 as [|q|q]; try lia.
    now rewrite Z.shiftr_div_pow2 by lia.
Qed.

(** A mantissa of [53 + n] digits keeps its quotient by [2^n]. *)
Lemma quotient_53_digits (mx : positive) (n : Z) :
  0 <= n -> Zpos (digits2_pos mx) = 53 + n ->
  2 ^ 52 <= Zpos mx / 2 ^ n < 2 ^ 53.
Proof.
  intros Hn Hd. pose proof (digits2_bounds mx) as [Dl Du]. rewrite Hd in Dl, Du.
  replace (53 + n - 1) with (52 + n) in Dl by lia.
  rewrite Z.pow_add_r in Dl, Du by lia.
  assert (0 < 2 ^ n) by (apply Z.pow_pos_nonneg; lia).
  split.
  - apply Z.div_le_lower_bound; lia.
  - apply Z.div_lt_upper_bound; lia.
Qed.

(** Rounding an exact product or integer of more than 53 digits: the
    result keeps the quotient by [2^n] or, when the last dropped bit is
    set, possibly the next integer. *)
Lemma round_exact_to_int (sx : bool) (mx : positive) (ex n : Z) :
  Zpos (digits2_pos mx) = 53 + n -> 1 <= n -> -1074 <= ex + n < 0 ->
  exists m1,
    (m1 = Zpos mx / 2 ^ n
     \/ (m1 = Zpos mx / 2 ^ n + 1 /\ Z.odd (Zpos mx / 2 ^ (n - 1)) = true))
    /\ F64.to_int (binary_round_aux 53 1024 sx (Zpos mx) ex loc_Exact)
       = Some (cond_Zopp sx (m1 / 2 ^ (- (ex + n)))).
Proof.
  intros Hd Hn He.
  pose proof (quotient_53_digits mx n ltac:(lia) Hd) as Hq.
  unfold binary_round_aux.
  unfold shr_fexp at 1. cbn [Zdigits2]. rewrite Hd.
  unfold fexp at 1, emin. rewrite Z.max_l by lia.
  replace (53 + n + ex - 53 - ex) with n by lia.
  destruct n as [|np|np]; try lia.
  destruct (shr_exact (Zpos mx) ex np ltac:(lia)) as (mrs & -> & Hm & Hr).
  pose proof (round_nearest_even_cases mrs) as Hc. cbv zeta in Hc.
  set (m1 := round_nearest_even (shr_m mrs) (loc_of_shr_record mrs)) in *.
  rewrite Hm, Hr in Hc.
  exists m1. split; [exact Hc|].
  apply round_finish_to_int; [|exact He].
  change (2 ^ 53) with 9007199254740992 in *. lia.
Qed.

(** A mantissa of 53 digits is stored as it is. *)
Lemma round_53_digits (sx : bool) (mz : positive) (ez : Z) :
  Zpos (digits2_pos mz) = 53 -> -1074 <= ez <= 971 ->
  binary_round_aux 53 1024 sx (Zpos mz) ez loc_Exact = S754_finite sx mz ez.
Proof.
  intros Hd He. unfold binary_round_aux, shr_fexp.
  cbn [Zdigits2]. rewrite Hd. unfold fexp, emin. rewrite Z.max_l by lia.
  replace (53 + ez - 53 - ez) with 0 by lia.
  cbn [shr shr_record_of_loc shr_m loc_of_shr_record round_nearest_even
       Zdigits2].
  rewrite Hd. rewrite Z.max_l by lia.
  replace (53 + ez - 53 - ez) with 0 by lia.
  cbn [shr shr_record_of_loc shr_m].
  destruct (Z.leb_spec ez (1024 - 53)); [reflexivity | lia].
Qed.

Lemma pos_iter_xO (mx k : positive) :
  Zpos (Pos.iter xO mx k) = Zpos mx * 2 ^ Zpos k.
Proof.
  induction k as [|k IH] using Pos.peano_ind.
  - cbn [Pos.iter]. change (2 ^ 1) with 2. lia.
  - rewrite Pos.iter_succ, Pos2Z.inj_xO, IH, Pos2Z.inj_succ,
      Z.pow_succ_r by lia. lia.
Qed.

(** [float(z)] for an int of at most 53 digits is exact: the mantissa is
    the int shifted up to 53 digits. *)
Lemma binary_normalize_small (sx : bool) (p : positive) :
  Zpos (digits2_pos p) <= 53 ->
  exists m,
    binary_round 53 1024 sx p 0
      = S754_finite sx m (Zpos (digits2_pos p) - 53)
    /\ Zpos m = Zpos p * 2 ^ (53 - Zpos (digits2_pos p))
    /\ Zpos (digits2_pos m) = 53.
Proof.
  intros Hd. pose proof (digits2_bounds p) as [Dl Du].
  set (d := Zpos (digits2_pos p)) in *.
  unfold binary_round. fold d. unfold fexp, emin.
  rewrite Z.max_l by lia. unfold shl_align.
  replace (d + 0 - 53 - 0) with (d - 53) by lia.
  replace (d + 0 - 53) with (d - 53) by lia.
  destruct (d - 53) as [|k|k] eqn:Ek; try lia.
  - exists p. assert (Hd53 : Zpos (digits2_pos p) = 53) by (fold d; lia).
    rewrite round_53_digits by (assumption || lia).
    replace (53 - d) with 0 by lia. rewrite Z.mul_1_r. auto.
  - exists (Pos.iter xO p k).
    assert (Hm : Zpos (Pos.iter xO p k) = Zpos p * 2 ^ (53 - d))
      by (rewrite pos_iter_xO; do 2 f_equal; lia).
    assert (Hd53 : Zpos (digits2_pos (Pos.iter xO p k)) = 53).
    { apply digits2_unique. rewrite Hm.
      assert (E1 : 2 ^ (53 - 1) = 2 ^ (d - 1) * 2 ^ (53 - d))
        by (rewrite <- Z.pow_add_r by lia; f_equal; lia).
      assert (E2 : 2 ^ 53 = 2 ^ d * 2 ^ (53 - d))
        by (rewrite <- Z.pow_add_r by lia; f_equal; lia).
      rewrite E1, E2.
      assert (0 < 2 ^ (53 - d)) by (apply Z.pow_pos_nonneg; lia).
      split.
      - apply Z.mul_le_mono_nonneg_r; lia.
      - apply Z.mul_lt_mono_pos_r; lia. }
    rewrite round_53_digits by (assumption || lia). auto.
Qed.

(** ** kW to horsepower *)

(** The mantissa of the literal 1.36 and the exact fraction it is near:
    25 * mantissa = 34 * 2^52 + 11. *)
Lemma f1_36_mantissa :
  F64.f1_36 = S754_finite false 6124895493223875 (-52)
  /\ 25 * 6124895493223875 = 34 * 2 ^ 52 + 11.
Proof. split; reflexivity. Qed.

Lemma digits_below (p : positive) (k : Z) :
  0 <= k -> Zpos p < 2 ^ k -> Zpos (digits2_pos p) <= k.
Proof.
  intros Hk Hp. pose proof (digits2_bounds p) as [Dl _].
  destruct (Z.le_gt_cases (Zpos (digits2_pos p)) k) as [|Hgt]; [assumption|].
  assert (2 ^ k <= 2 ^ (Zpos (digits2_pos p) - 1))
    by (apply Z.pow_le_mono_r; lia).
  lia.
Qed.

(** An inequality between integers, scaled. *)
Lemma scaled_le (u v K : Z) : 0 <= K -> u <= v -> u * K <= v * K.
Proof. intros HK Huv. apply Z.mul_le_mono_nonneg_r; assumption. Qed.

Lemma mul_1_36_to_int (sx : bool) (p : positive) :
  Zpos p < 2 ^ 46 ->
  F64.to_int (F64.mul (binary_round 53 1024 sx p 0) F64.f1_36)
  = Some (cond_Zopp sx (34 * Zpos p / 25)).
Proof.
  intros Hp.
  pose proof (digits_below p 46 ltac:(lia) Hp) as Hd46.
  pose proof (digits2_bounds p) as [Dl Du].
  destruct (binary_normalize_small sx p ltac:(lia)) as (m & -> & Hm & Hdm).
  set (d := Zpos (digits2_pos p)) in *.
  set (K := 2 ^ (53 - d)) in *.
  assert (HK : 2 ^ 7 <= K) by (apply Z.pow_le_mono_r; lia).
  assert (HX : Zpos p * K < 2 ^ 53).
  { replace 53 with (d + (53 - d)) by lia. rewrite Z.pow_add_r by lia.
    apply Z.mul_lt_mono_pos_r; [|exact Du]. unfold K. lia. }
  pose proof (digits2_bounds m) as [Ml Mu]. rewrite Hdm in Ml, Mu.
  unfold F64.mul, F64.f1_36, SFmul. cbn [xorb].
  rewrite xorb_false_r.
  set (M := 6124895493223875%positive).
  assert (HM : 25 * Zpos M = 34 * 2 ^ 52 + 11) by reflexivity.
  (* the product has 105 or 106 digits *)
  assert (Hn : exists n, (n = 52 \/ n = 53)
                /\ Zpos (digits2_pos (m * M)) = 53 + n).
  { destruct (Z.lt_ge_cases (Zpos (m * M)) (2 ^ 105)) as [Hlt|Hge].
    - exists 52. split; [auto|]. apply digits2_unique.
      split; [|exact Hlt]. rewrite Pos2Z.inj_mul.
      change (2 ^ (53 + 52 - 1)) with (2 ^ 52 * 2 ^ 52).
      change (2 ^ (53 - 1)) with (2 ^ 52) in Ml.
      apply Z.mul_le_mono_nonneg; try lia; unfold M; lia.
    - exists 53. split; [auto|]. apply digits2_unique.
      split; [exact Hge|]. rewrite Pos2Z.inj_mul.
      change (2 ^ (53 + 53)) with (2 ^ 53 * 2 ^ 53).
      apply Z.mul_lt_mono_nonneg; try lia; unfold M; lia. }
  destruct Hn as (n & Hn & Hdp).
  change F64.prec with 53. change F64.emax with 1024.
  destruct (round_exact_to_int sx (m * M) (d - 53 + -52) n Hdp
              ltac:(lia) ltac:(lia)) as (m1 & Hm1 & ->).
  do 2 f_equal.
  set (t := - (d - 53 + -52 + n)).
  set (q := Zpos (m * M) / 2 ^ n) in *.
  assert (Ht : 0 < 2 ^ t) by (apply Z.pow_pos_nonneg; unfold t; lia).
  assert (Hn2 : 0 < 2 ^ n) by (apply Z.pow_pos_nonneg; lia).
  assert (Hnt : 2 ^ n * 2 ^ t = 2 ^ 52 * K).
  { unfold K, t. rewrite <- !Z.pow_add_r by lia. f_equal. lia. }
  assert (Hq1 : q <= m1 <= q + 1) by (destruct Hm1 as [->|[-> _]]; lia).
  set (a := 34 * Zpos p / 25).
  assert (Ha : 25 * a <= 34 * Zpos p < 25 * a + 25).
  { unfold a. pose proof (Z.mul_div_le (34 * Zpos p) 25 ltac:(lia)).
    pose proof (Z.mul_succ_div_gt (34 * Zpos p) 25 ltac:(lia)). lia. }
  assert (Hprod : Zpos (m * M) = Zpos p * K * Zpos M)
    by (rewrite Pos2Z.inj_mul, Hm; reflexivity).
  assert (Hqn : 2 ^ n * q <= Zpos (m * M) < 2 ^ n * q + 2 ^ n).
  { unfold q. pose proof (Z.mul_div_le (Zpos (m * M)) (2 ^ n) Hn2).
    pose proof (Z.mul_succ_div_gt (Zpos (m * M)) (2 ^ n) Hn2). lia. }
  apply Z.le_antisymm.
  - (* at most [a] *)
    apply Z.lt_succ_r. apply Z.div_lt_upper_bound; [exact Ht|].
    apply Z.le_lt_trans with (q + 1); [lia|].
    apply (Z.mul_lt_mono_pos_l (2 ^ n)); [exact Hn2|].
    rewrite Z.mul_assoc, Hnt.
    assert (H2n : 2 ^ n <= 2 ^ 53) by (apply Z.pow_le_mono_r; lia).
    change (2 ^ 53) with 9007199254740992 in *.
    change (2 ^ 52) with 4503599627370496 in *.
    change (2 ^ 7) with 128 in *.
    assert (25 * (a * K) <= 34 * (Zpos p * K))
      by (pose proof (scaled_le (25 * a) (34 * Zpos p) K); lia).
    assert (34 * (Zpos p * K) <= 25 * (a * K) + 24 * K)
      by (pose proof (scaled_le (34 * Zpos p) (25 * a + 24) K); lia).
    set (X := Zpos p * K) in *. 
    replace (4503599627370496 * K * Z.succ a)
      with (4503599627370496 * (a * K) + 4503599627370496 * K) by ring.
    set (A := a * K) in *.
    rewrite Hprod in Hqn. fold X in Hqn. lia.
  - (* at least [a] *)
    apply Z.div_le_lower_bound; [exact Ht|].
    apply Z.le_trans with q; [|lia].
    unfold q. apply Z.div_le_lower_bound; [exact Hn2|].
    rewrite Z.mul_assoc, Hnt, Hprod.
    change (2 ^ 52) with 4503599627370496 in *.
    assert (25 * (a * K) <= 34 * (Zpos p * K))
      by (pose proof (scaled_le (25 * a) (34 * Zpos p) K); lia).
    set (X := Zpos p * K) in *.
    replace (4503599627370496 * K * a) with (4503599627370496 * (a * K))
      by ring.
    set (A := a * K) in *. lia.
Qed.

(** ** Horsepower to kW *)

Lemma shr_record_of_loc_m (m : Z) (l : location) :
  shr_m (shr_record_of_loc m l) = m.
Proof. destruct l as [|[]]; reflexivity. Qed.

(** Rounding a quotient of 53 or 54 digits with its remainder: the result
    keeps the quotient, halved if it has 54 digits, or the next integer. *)
Lemma round_loc_to_int (sx : bool) (mx : positive) (ex : Z) (lx : location)
    (n : Z) :
  Zpos (digits2_pos mx) = 53 + n -> n = 0 \/ n = 1 ->
  -1074 <= ex + n < 0 ->
  exists m1,
    Zpos mx / 2 ^ n <= m1 <= Zpos mx / 2 ^ n + 1
    /\ F64.to_int (binary_round_aux 53 1024 sx (Zpos mx) ex lx)
       = Some (cond_Zopp sx (m1 / 2 ^ (- (ex + n)))).
Proof.
  intros Hd Hn He.
  pose proof (quotient_53_digits mx n ltac:(lia) Hd) as Hq.
  unfold binary_round_aux.
  unfold shr_fexp at 1. cbn [Zdigits2]. rewrite Hd.
  unfold fexp at 1, emin. rewrite Z.max_l by lia.
  replace (53 + n + ex - 53 - ex) with n by lia.
  assert (Hmrs : exists mrs,
            shr (shr_record_of_loc (Zpos mx) lx) ex n = (mrs, ex + n)
            /\ shr_m mrs = Zpos mx / 2 ^ n).
  { destruct Hn as [-> | ->].
    - exists (shr_record_of_loc (Zpos mx) lx). cbn [shr].
      rewrite Z.add_0_r, shr_record_of_loc_m, Z.div_1_r. auto.
    - cbn [shr SpecFloat.iter_pos].
      destruct (shr_record_of_loc (Zpos mx) lx) as [m r s] eqn:E.
      assert (m = Zpos mx)
        by (rewrite <- (shr_record_of_loc_m (Zpos mx) lx), E; reflexivity).
      subst m. rewrite shr_1_nonneg by lia. eexists. split; reflexivity. }
  destruct Hmrs as (mrs & -> & Hm).
  pose proof (round_nearest_even_cases mrs) as Hc. cbv zeta in Hc.
  set (m1 := round_nearest_even (shr_m mrs) (loc_of_shr_record mrs)) in *.
  rewrite Hm in Hc.
  exists m1. split; [destruct Hc as [->|[-> _]]; lia|].
  apply round_finish_to_int; [|exact He].
  change (2 ^ 53) with 9007199254740992 in *. lia.
Qed.

Lemma div_1_36_to_int (sx : bool) (p : positive) :
  Zpos p < 2 ^ 47 ->
  exists T,
    F64.to_int (SFdiv 53 1024 (binary_round 53 1024 sx p 0) F64.f1_36)
      = Some (cond_Zopp sx T)
    /\ 25 * Zpos p / 34 - 1 <= T <= 25 * Zpos p / 34
    /\ (Zpos p mod 34 <> 0 -> T = 25 * Zpos p / 34).
Proof.
  intros Hp.
  pose proof (digits_below p 47 ltac:(lia) Hp) as Hd47.
  pose proof (digits2_bounds p) as [Dl Du].
  destruct (binary_normalize_small sx p ltac:(lia)) as (m & -> & Hm & Hdm).
  set (d := Zpos (digits2_pos p)) in *.
  set (K := 2 ^ (53 - d)) in *.
  assert (HK : 2 ^ 6 <= K) by (apply Z.pow_le_mono_r; lia).
  pose proof (digits2_bounds m) as [Ml Mu]. rewrite Hdm in Ml, Mu.
  change (2 ^ (53 - 1)) with (2 ^ 52) in Ml.
  unfold F64.f1_36, SFdiv, SFdiv_core_binary. rewrite xorb_false_r.
  cbn [Zdigits2]. rewrite Hdm.
  set (M := 6124895493223875%positive).
  change (Zpos (digits2_pos M)) with 53.
  unfold fexp, emin.
  replace (Z.min (Z.max (53 + (d - 53) - (53 + -52) - 53) (3 - 1024 - 53))
             (d - 53 - -52)) with (d - 54) by lia.
  replace (d - 53 - -52 - (d - 54)) with 53 by lia.
  rewrite Z.shiftl_mul_pow2 by lia.
  pose proof (Z_div_mod (Zpos m * 2 ^ 53) (Zpos M) ltac:(lia)) as Hdiv.
  destruct (Z.div_eucl (Zpos m * 2 ^ 53) (Zpos M)) as [q r].
  destruct Hdiv as [Hdiv Hr].
  assert (HM : 25 * Zpos M = 34 * 2 ^ 52 + 11) by reflexivity.
  change (2 ^ 52) with 4503599627370496 in *.
  change (2 ^ 53) with 9007199254740992 in *.
  change (2 ^ 6) with 64 in *.
  change (2 ^ 47) with 140737488355328 in *.
  assert (HMv : Zpos M = 6124895493223875) by reflexivity.
  assert (Hqb : 2 ^ 52 <= q < 2 ^ 54).
  { change (2 ^ 52) with 4503599627370496.
    change (2 ^ 54) with 18014398509481984. nia. }
  destruct q as [|qp|qp]; try (change (2 ^ 52) with 4503599627370496 in Hqb; lia).
  assert (Hn : exists n, (n = 0 \/ n = 1)
                /\ Zpos (digits2_pos qp) = 53 + n).
  { destruct (Z.lt_ge_cases (Zpos qp) (2 ^ 53)) as [Hlt|Hge].
    - exists 0. split; [auto|]. apply digits2_unique.
      change (2 ^ (53 + 0 - 1)) with (2 ^ 52). lia.
    - exists 1. split; [auto|]. apply digits2_unique.
      change (2 ^ (53 + 1 - 1)) with (2 ^ 53). lia. }
  destruct Hn as (n & Hn & Hdq).
  destruct (round_loc_to_int sx qp (d - 54) (new_location (Zpos M) r) n Hdq
              Hn ltac:(lia)) as (m1 & Hm1 & ->).
  set (t := - (d - 54 + n)).
  exists (m1 / 2 ^ t). split; [reflexivity|].
  assert (Ht : 0 < 2 ^ t) by (apply Z.pow_pos_nonneg; unfold t; lia).
  assert (Hn2 : 0 < 2 ^ n) by (apply Z.pow_pos_nonneg; lia).
  assert (Hnt : 2 ^ n * 2 ^ t = 2 * K).
  { unfold K, t. rewrite <- Z.pow_add_r by lia. rewrite <- Z.pow_succ_r by lia.
    f_equal. lia. }
  assert (H2n : 2 ^ n <= 2) by (destruct Hn as [-> | ->]; simpl; lia).
  set (a := 25 * Zpos p / 34).
  assert (Ha : 34 * a <= 25 * Zpos p < 34 * a + 34).
  { unfold a. pose proof (Z.mul_div_le (25 * Zpos p) 34 ltac:(lia)).
    pose proof (Z.mul_succ_div_gt (25 * Zpos p) 34 ltac:(lia)). lia. }
  set (qn := Zpos qp / 2 ^ n) in *.
  assert (Hqn : 2 ^ n * qn <= Zpos qp < 2 ^ n * qn + 2 ^ n).
  { unfold qn. pose proof (Z.mul_div_le (Zpos qp) (2 ^ n) Hn2).
    pose proof (Z.mul_succ_div_gt (Zpos qp) (2 ^ n) Hn2). lia. }
  rewrite Hm in Hdiv.
  assert (HA1 : 34 * (a * K) <= 25 * (Zpos p * K))
    by (pose proof (scaled_le (34 * a) (25 * Zpos p) K); lia).
  assert (HA2 : 25 * (Zpos p * K) <= 34 * (a * K) + 33 * K)
    by (pose proof (scaled_le (25 * Zpos p) (34 * a + 33) K); lia).
  assert (Hupper : m1 / 2 ^ t <= a).
  { apply Z.lt_succ_r. apply Z.div_lt_upper_bound; [exact Ht|].
    apply Z.le_lt_trans with (qn + 1); [lia|].
    apply (Z.mul_lt_mono_pos_l (2 ^ n)); [exact Hn2|].
    rewrite Z.mul_assoc, Hnt.
    apply Z.le_lt_trans with (Zpos qp + 2); [lia|].
    apply (Z.mul_lt_mono_pos_l (Zpos M)); [lia|].
    set (X := Zpos p * K) in *. set (A := a * K) in *.
    replace (2 * K * Z.succ a) with (2 * A + 2 * K) by (unfold A; ring).
    assert (0 <= A) by (unfold A, a; apply Z.mul_nonneg_nonneg;
                       [apply Z.div_pos; lia | lia]).
    unfold M in *. lia. }
  assert (Hlower : forall c, c * Zpos M <= Zpos p * 4503599627370496 ->
                   c <= m1 / 2 ^ t).
  { intros c Hc. apply Z.div_le_lower_bound; [exact Ht|].
    apply Z.le_trans with qn; [|lia].
    unfold qn. apply Z.div_le_lower_bound; [exact Hn2|].
    rewrite Z.mul_assoc, Hnt.
    (* 2K.c <= q  from  M.(2K.c) <= m.2^53 < M.(q+1) *)
    apply Z.lt_succ_r.
    apply (Z.mul_lt_mono_pos_l (Zpos M)); [lia|].
    apply Z.le_lt_trans with (Zpos p * K * 9007199254740992);
      [|unfold M in *; lia].
    replace (Zpos M * (2 * K * c)) with (2 * K * (c * Zpos M)) by ring.
    replace (Zpos p * K * 9007199254740992)
      with (2 * K * (Zpos p * 4503599627370496)) by ring.
    apply Z.mul_le_mono_nonneg_l; lia. }
  split; [split; [|exact Hupper]|].
  - apply Hlower. unfold M in *. lia.
  - intros Hmod. apply Z.le_antisymm; [exact Hupper|].
    apply Hlower.
    assert (34 * a < 25 * Zpos p).
    { destruct (Z.eq_dec (34 * a) (25 * Zpos p)) as [He|]; [|lia].
      exfalso. apply Hmod.
      pose proof (Z.div_mod (Zpos p) 34 ltac:(lia)).
      pose proof (Z.mod_pos_bound (Zpos p) 34 ltac:(lia)).
      lia. }
    unfold M in *. lia.
Qed.

(** ** Negative ints *)






Lemma of_int_finite (sx : bool) (p : positive) (k : Z) :
  0 <= k <= 53 -> Zpos p < 2 ^ k ->
  match binary_round 53 1024 sx p 0 with
  | S754_infinity _ => None
  | f => Some f
  end = Some (binary_round 53 1024 sx p 0).
Proof.
  intros Hk Hp. pose proof (digits_below p k ltac:(lia) Hp).
  destruct (binary_normalize_small sx p ltac:(lia)) as (m & -> & _).
  reflexivity.
Qed.

(** [int(kw * 1.36)] is the integer part of [1.36 kw]. *)
Lemma hp_of_kw_exact (kw : Z) :
  Z.abs kw < 2 ^ 46 -> Predict.hp_of_kw kw = Some (Z.quot (34 * kw) 25).
Proof.
  intros Hkw. unfold Predict.hp_of_kw, F64.int_mul, F64.of_int.
  change F64.prec with 53. change F64.emax with 1024.
  destruct kw as [|p|p]; [reflexivity | |]; cbn [binary_normalize].
  - change (Zpos p < 2 ^ 46) in Hkw.
    rewrite (of_int_finite false p 46 ltac:(lia) Hkw).
    cbn [mbind option_bind]. rewrite (mul_1_36_to_int false p Hkw).
    rewrite Z.quot_div_nonneg by lia. reflexivity.
  - change (Zpos p < 2 ^ 46) in Hkw.
    rewrite (of_int_finite true p 46 ltac:(lia) Hkw).
    cbn [mbind option_bind]. rewrite (mul_1_36_to_int true p Hkw).
    cbn [cond_Zopp]. f_equal.
    change (Zneg p) with (- Zpos p).
    rewrite Z.mul_opp_r, Z.quot_opp_l by lia.
    rewrite Z.quot_div_nonneg by lia. reflexivity.
Qed.

(** [int(hp / 1.36)] is the integer part of [hp / 1.36], or one less when
    [hp / 1.36] is an integer. *)
Lemma kw_of_hp_bounds (hp : Z) :
  0 <= hp < 2 ^ 47 ->
  exists kw,
    Predict.kw_of_hp hp = Some kw
    /\ 25 * hp / 34 - 1 <= kw <= 25 * hp / 34
    /\ (hp mod 34 <> 0 -> kw = 25 * hp / 34).
Proof.
  intros Hhp. unfold Predict.kw_of_hp, F64.int_div, F64.of_int.
  destruct hp as [|p|p]; try lia.
  - exists 0. split; [reflexivity|]. change (25 * 0 / 34) with 0.
    split; [lia | reflexivity].
  - destruct Hhp as [_ Hhp].
    cbn [binary_normalize]. change F64.prec with 53. change F64.emax with 1024.
    rewrite (of_int_finite false p 47 ltac:(lia) Hhp).
    cbn [mbind option_bind]. unfold F64.div.
    destruct (div_1_36_to_int false p Hhp) as (T & HT & Hb & He).
    exists T. unfold F64.f1_36 in *. cbn [mbind option_bind].
    change F64.prec with 53. change F64.emax with 1024.
    rewrite HT. auto.
Qed.


(** ** The power logic *)



(** ** The round trip kW, horsepower, kW *)




(** * Further properties of the two programs *)

(** ** The fallback estimate and the power logic *)

(** [<=] through a positive finite bound. *)
Lemma leb_trans_pos (x y : spec_float) (m : positive) (e : Z) :
  F64.leb x y = true ->
  F64.leb y (S754_finite false m e) = true ->
  F64.leb x (S754_finite false m e) = true.
Proof.
  intros Hxy Hy. apply leb_finite_pos in Hy. apply leb_finite_pos.
  destruct y as [sy|sy| |sy my ey]; [| subst sy | | destruct sy];
    try (destruct x as [sx|sx| |sx mx ex]; try destruct sx;
         first [exact I | reflexivity | discriminate]).
  apply leb_finite_pos in Hxy.
  destruct x as [sx|sx| |sx mx ex]; try tauto.
  destruct sx; [exact I | lia].
Qed.

(** X1. For a fixed fuel string the fallback estimate of both programs never
    decreases when the engine displacement increases: if [e1 <= e2] as
    floats, the estimate for [e1] is at most the estimate for [e2]. *)
Theorem estimate_kw_monotone (e1 e2 : spec_float) (fuel : string) :
  F64.leb e1 e2 = true ->
  Predict.estimate_kw_from_engine e1 fuel
    <= Predict.estimate_kw_from_engine e2 fuel
  /\ App.estimate_kw_from_engine e1 fuel
    <= App.estimate_kw_from_engine e2 fuel.
Proof.
  intros H.
  assert (T : forall m e, F64.leb e2 (S754_finite false m e) = true ->
                          F64.leb e1 (S754_finite false m e) = true)
    by (intros m e; apply leb_trans_pos, H).
  unfold App.estimate_kw_from_engine, Predict.estimate_kw_from_engine.
  destruct (PyStr.contains _ _).
  - destruct (F64.leb e2 F64.f1_5) eqn:H15.
    { rewrite (T _ _ H15 : F64.leb e1 F64.f1_5 = true). lia. }
    destruct (F64.leb e2 F64.f2_0) eqn:H20.
    { rewrite (T _ _ H20 : F64.leb e1 F64.f2_0 = true).
      destruct (F64.leb e1 F64.f1_5); lia. }
    destruct (F64.leb e1 F64.f1_5), (F64.leb e1 F64.f2_0); lia.
  - destruct (F64.leb e2 F64.f1_2) eqn:H12.
    { rewrite (T _ _ H12 : F64.leb e1 F64.f1_2 = true). lia. }
    destruct (F64.leb e2 F64.f1_6) eqn:H16.
    { rewrite (T _ _ H16 : F64.leb e1 F64.f1_6 = true).
      destruct (F64.leb e1 F64.f1_2); lia. }
    destruct (F64.leb e2 F64.f2_0) eqn:H20.
    { rewrite (T _ _ H20 : F64.leb e1 F64.f2_0 = true).
      destruct (F64.leb e1 F64.f1_2), (F64.leb e1 F64.f1_6); lia. }
    destruct (F64.leb e1 F64.f1_2), (F64.leb e1 F64.f1_6),
      (F64.leb e1 F64.f2_0); lia.
Qed.

Lemma estimate_kw_monotone_witness :
  F64.leb F64.f1_2 F64.f2_0 = true
  /\ Predict.estimate_kw_from_engine F64.f1_2 "petrol"
     <= Predict.estimate_kw_from_engine F64.f2_0 "petrol"
  /\ App.estimate_kw_from_engine F64.f1_2 "petrol"
     <= App.estimate_kw_from_engine F64.f2_0 "petrol".
Proof.
  split; [vm_compute; reflexivity|].
  apply (estimate_kw_monotone F64.f1_2 F64.f2_0 "petrol").
  vm_compute; reflexivity.
Defined.

(** The estimate and the horsepower derived from it. *)
Lemma estimate_hp (engine : spec_float) (fuel : string) :
  exists hp,
    Predict.hp_of_kw (Predict.estimate_kw_from_engine engine fuel) = Some hp
    /\ (Predict.estimate_kw_from_engine engine fuel, hp)
       ∈ [(75, 102); (110, 149); (140, 190);
          (60, 81); (92, 125); (132, 179); (184, 250)].
Proof.
  pose proof (estimate_kw_cases engine fuel) as H. cbv zeta in H.
  assert (E : forall k h, Predict.hp_of_kw k = Some h ->
              Predict.estimate_kw_from_engine engine fuel = k ->
              (k, h) ∈ [(75, 102); (110, 149); (140, 190);
                   (60, 81); (92, 125); (132, 179); (184, 250)] ->
              exists hp,
                Predict.hp_of_kw
                  (Predict.estimate_kw_from_engine engine fuel) = Some hp
                /\ (Predict.estimate_kw_from_engine engine fuel, hp)
                   ∈ [(75, 102); (110, 149); (140, 190);
                      (60, 81); (92, 125); (132, 179); (184, 250)]).
  { intros k h Hh -> Hin. exists h. auto. }
  destruct (PyStr.contains _ _); repeat destruct (F64.leb _ _);
    [ apply (E 75 102) | apply (E 110 149) | apply (E 140 190)
    | apply (E 60 81) | apply (E 92 125) | apply (E 132 179)
    | apply (E 184 250) ];
    try exact H; try (vm_compute; reflexivity);
    rewrite !elem_of_cons; tauto.
Qed.

(** X2. When no power is given (two empty lines on the console, two zeros
    on the page) the power logic of both programs does not fail, whatever
    the displacement, a NaN included, and whatever the fuel string: the kW
    figure is the fallback estimate, and the pair of kW and horsepower is
    one of (75, 102), (110, 149), (140, 190), (60, 81), (92, 125),
    (132, 179), (184, 250). *)
Theorem fallback_power (py_int : string -> option Z) (engine : spec_float)
    (fuel : string) :
  exists kw hp,
    Predict.power py_int "" "" engine fuel = Some (kw, hp)
    /\ App.power 0 0 engine fuel = Some (kw, hp)
    /\ kw = Predict.estimate_kw_from_engine engine fuel
    /\ (kw, hp) ∈ [(75, 102); (110, 149); (140, 190);
                   (60, 81); (92, 125); (132, 179); (184, 250)].
Proof.
  unfold Predict.power, App.power.
  change (App.estimate_kw_from_engine engine fuel)
    with (Predict.estimate_kw_from_engine engine fuel).
  change (negb ("" =? "")%string) with false. change (0 <? 0) with false.
  cbv iota.
  change (F64.int_mul ?k F64.f1_36 ≫= F64.to_int) with (Predict.hp_of_kw k).
  destruct (estimate_hp engine fuel) as (hp & -> & Hin).
  exists (Predict.estimate_kw_from_engine engine fuel), hp. auto.
Qed.

(** X3. The power logic of the console and that of the page return the same
    when the same power is given to both: a kW line that is not empty and
    reads as a positive number against that number in the kW box, whatever
    the horsepower line and box; an empty kW line and a horsepower line
    that is not empty and reads as a positive number against a kW box at 0
    or below and that number in the horsepower box; two empty lines against
    two boxes at 0 or below. They differ at 0: a kW line that reads as 0
    gives 0 kW and 0 hp on the console, while the page takes 0 in both
    boxes for no input and estimates at least 60 kW. *)
Theorem power_console_page (py_int : string -> option Z)
    (engine : spec_float) (fuel : string) :
  (forall kw_line hp_line kw hp,
     kw_line <> "" -> py_int kw_line = Some kw -> 0 < kw ->
     Predict.power py_int kw_line hp_line engine fuel
     = App.power kw hp engine fuel)
  /\ (forall hp_line kw hp,
        kw <= 0 -> hp_line <> "" -> py_int hp_line = Some hp -> 0 < hp ->
        Predict.power py_int "" hp_line engine fuel
        = App.power kw hp engine fuel)
  /\ (forall kw hp,
        kw <= 0 -> hp <= 0 ->
        Predict.power py_int "" "" engine fuel = App.power kw hp engine fuel)
  /\ (forall kw_line hp_line,
        kw_line <> "" -> py_int kw_line = Some 0 ->
        Predict.power py_int kw_line hp_line engine fuel = Some (0, 0)
        /\ exists kw hp,
             App.power 0 0 engine fuel = Some (kw, hp) /\ 60 <= kw).
Proof.
  unfold Predict.power, App.power.
  change (App.estimate_kw_from_engine engine fuel)
    with (Predict.estimate_kw_from_engine engine fuel).
  change (F64.int_mul ?k F64.f1_36 ≫= F64.to_int) with (Predict.hp_of_kw k).
  change (F64.int_div ?k F64.f1_36 ≫= F64.to_int) with (Predict.kw_of_hp k).
  split; [|split; [|split]].
  - intros kl hl kw hp Hk Hi Hpos.
    apply String.eqb_neq in Hk. rewrite Hk, Hi. cbn [negb].
    apply Z.ltb_lt in Hpos. rewrite Hpos. reflexivity.
  - intros hl kw hp Hk Hh Hi Hpos.
    apply String.eqb_neq in Hh. rewrite Hh, Hi.
    change (negb ("" =? "")%string) with false. cbn [negb].
    apply Z.ltb_ge in Hk. rewrite Hk. apply Z.ltb_lt in Hpos. rewrite Hpos.
    reflexivity.
  - intros kw hp Hk Hh. change (negb ("" =? "")%string) with false.
    apply Z.ltb_ge in Hk, Hh. rewrite Hk, Hh. reflexivity.
  - intros kl hl Hk Hi. apply String.eqb_neq in Hk. rewrite Hk, Hi.
    cbn [negb]. split; [reflexivity|].
    change (0 <? 0) with false. cbv iota.
    destruct (estimate_hp engine fuel) as (hp & -> & Hin).
    exists (Predict.estimate_kw_from_engine engine fuel), hp.
    split; [reflexivity|].
    rewrite !elem_of_cons, elem_of_nil in Hin.
    destruct Hin as [H|[H|[H|[H|[H|[H|[H|[]]]]]]]];
      injection H as -> _; lia.
Qed.

(** X4. For kW figures [kw1 <= kw2] strictly between -2^46 and 2^46,
    [int(kw * 1.36)] raises on neither, the horsepower of [kw1] is at most
    that of [kw2], and of either figure the horsepower is at least as large
    when the figure is not negative and at most as large when it is not
    positive. *)
Theorem hp_of_kw_monotone (kw1 kw2 : Z) :
  - 2 ^ 46 < kw1 -> kw1 <= kw2 -> kw2 < 2 ^ 46 ->
  exists hp1 hp2,
    Predict.hp_of_kw kw1 = Some hp1 /\ Predict.hp_of_kw kw2 = Some hp2
    /\ hp1 <= hp2
    /\ (0 <= kw1 -> kw1 <= hp1) /\ (kw1 <= 0 -> hp1 <= kw1)
    /\ (0 <= kw2 -> kw2 <= hp2) /\ (kw2 <= 0 -> hp2 <= kw2).
Proof.
  intros H1 H12 H2.
  change (2 ^ 46) with 70368744177664 in *.
  assert (Hup : forall kw, 0 <= kw -> kw <= Z.quot (34 * kw) 25).
  { intros kw H0. rewrite Z.quot_div_nonneg by lia.
    apply Z.div_le_lower_bound; lia. }
  assert (Hdown : forall kw, kw <= 0 -> Z.quot (34 * kw) 25 <= kw).
  { intros kw H0. replace (34 * kw) with (- (34 * - kw)) by lia.
    rewrite Z.quot_opp_l by lia. rewrite Z.quot_div_nonneg by lia.
    assert (- kw <= 34 * - kw / 25) by (apply Z.div_le_lower_bound; lia).
    lia. }
  exists (Z.quot (34 * kw1) 25), (Z.quot (34 * kw2) 25).
  split; [apply hp_of_kw_exact; change (2 ^ 46) with 70368744177664; lia|].
  split; [apply hp_of_kw_exact; change (2 ^ 46) with 70368744177664; lia|].
  split; [apply Z.quot_le_mono; lia|].
  repeat split; auto.
Qed.

Lemma hp_of_kw_monotone_witness :
  (- 2 ^ 46 < 100 /\ 100 <= 110 /\ 110 < 2 ^ 46)
  /\ exists hp1 hp2,
    Predict.hp_of_kw 100 = Some hp1 /\ Predict.hp_of_kw 110 = Some hp2
    /\ hp1 <= hp2
    /\ (0 <= 100 -> 100 <= hp1) /\ (100 <= 0 -> hp1 <= 100)
    /\ (0 <= 110 -> 110 <= hp2) /\ (110 <= 0 -> hp2 <= 110).
Proof.
  split; [lia|]. apply (hp_of_kw_monotone 100 110); lia.
Defined.

(** The two conversions keep the pair within two horsepower of the factor
    1.36. *)
Lemma pair_from_kw (kw hp : Z) :
  0 <= kw < 2 ^ 46 -> Predict.hp_of_kw kw = Some hp ->
  0 <= 34 * kw - 25 * hp < 25.
Proof.
  intros Hk. rewrite hp_of_kw_exact
    by (change (2 ^ 46) with 70368744177664 in *; lia).
  intros [= <-]. rewrite Z.quot_div_nonneg by lia.
  pose proof (Z.div_mod (34 * kw) 25 ltac:(lia)).
  pose proof (Z.mod_pos_bound (34 * kw) 25 ltac:(lia)). lia.
Qed.

Lemma pair_from_hp (kw hp : Z) :
  0 <= hp < 2 ^ 47 -> Predict.kw_of_hp hp = Some kw ->
  -68 < 34 * kw - 25 * hp <= 0.
Proof.
  intros Hh H. destruct (kw_of_hp_bounds hp Hh) as (k & Hk & Hb & _).
  rewrite H in Hk. injection Hk as <-.
  pose proof (Z.div_mod (25 * hp) 34 ltac:(lia)).
  pose proof (Z.mod_pos_bound (25 * hp) 34 ltac:(lia)). lia.
Qed.

(** X5. Whatever the route (the kW given, the horsepower given, or the
    fallback estimate) and in both programs, a pair that the power logic
    returns with [0 <= kw < 2^46] and [0 <= hp < 2^47] has
    [-68 < 34 kw - 25 hp < 25]: the horsepower differs from 1.36 times the
    kW by less than 2.72. *)
Theorem power_pair_is_consistent (py_int : string -> option Z)
    (kw_line hp_line : string) (kw_input hp_input : Z)
    (engine : spec_float) (fuel : string) (kw hp : Z) :
  Predict.power py_int kw_line hp_line engine fuel = Some (kw, hp)
  \/ App.power kw_input hp_input engine fuel = Some (kw, hp) ->
  0 <= kw < 2 ^ 46 -> 0 <= hp < 2 ^ 47 ->
  -68 < 34 * kw - 25 * hp < 25.
Proof.
  intros H Hk Hh.
  assert (Hest : forall k h,
            Predict.hp_of_kw (Predict.estimate_kw_from_engine engine fuel)
              = Some h ->
            k = Predict.estimate_kw_from_engine engine fuel ->
            -68 < 34 * k - 25 * h < 25).
  { intros k h Hhp ->. destruct (estimate_hp engine fuel) as (h' & Hh' & Hin).
    rewrite Hhp in Hh'. injection Hh' as <-.
    rewrite !elem_of_cons, elem_of_nil in Hin.
    destruct Hin as [E|[E|[E|[E|[E|[E|[E|[]]]]]]]];
      injection E as -> ->; lia. }
  destruct H as [H|H].
  - unfold Predict.power in H.
    destruct (negb (kw_line =? "")%string).
    + destruct (py_int kw_line) as [k|]; [|discriminate H].
      cbn [mbind option_bind] in H.
      destruct (Predict.hp_of_kw k) as [h|] eqn:E; [|discriminate H].
      injection H as -> ->. pose proof (pair_from_kw kw hp Hk E). lia.
    + destruct (negb (hp_line =? "")%string).
      * destruct (py_int hp_line) as [h|]; [|discriminate H].
        cbn [mbind option_bind] in H.
        destruct (Predict.kw_of_hp h) as [k|] eqn:E; [|discriminate H].
        injection H as -> ->. pose proof (pair_from_hp kw hp Hh E). lia.
      * destruct (Predict.hp_of_kw _) as [h|] eqn:E; [|discriminate H].
        injection H as <- ->. apply Hest; reflexivity.
  - unfold App.power in H.
    change (App.estimate_kw_from_engine engine fuel)
      with (Predict.estimate_kw_from_engine engine fuel) in H.
    change (F64.int_mul ?k F64.f1_36 ≫= F64.to_int)
      with (Predict.hp_of_kw k) in H.
    change (F64.int_div ?k F64.f1_36 ≫= F64.to_int)
      with (Predict.kw_of_hp k) in H.
    destruct (0 <? kw_input).
    + destruct (Predict.hp_of_kw kw_input) as [h|] eqn:E; [|discriminate H].
      injection H as -> ->. pose proof (pair_from_kw kw hp Hk E). lia.
    + destruct (0 <? hp_input).
      * destruct (Predict.kw_of_hp hp_input) as [k|] eqn:E;
          [|discriminate H].
        injection H as -> ->. pose proof (pair_from_hp kw hp Hh E). lia.
      * destruct (Predict.hp_of_kw _) as [h|] eqn:E; [|discriminate H].
        injection H as <- ->. apply Hest; reflexivity.
Qed.

Lemma power_pair_is_consistent_witness :
  (App.power 0 136 F64.f1_6 "petrol" = Some (99, 136)
   /\ 0 <= 99 < 2 ^ 46 /\ 0 <= 136 < 2 ^ 47)
  /\ -68 < 34 * 99 - 25 * 136 < 25.
Proof.
  assert (H : App.power 0 136 F64.f1_6 "petrol" = Some (99, 136))
    by (vm_compute; reflexivity).
  assert (H1 : 0 <= 99 < 2 ^ 46) by (split; [lia | reflexivity]).
  assert (H2 : 0 <= 136 < 2 ^ 47) by (split; [lia | reflexivity]).
  split; [auto|].
  apply (power_pair_is_consistent (fun _ => None) "" "" 0 136 F64.f1_6
           "petrol" 99 136 (or_intror H) H1 H2).
Defined.

(** ** Powers beyond the floats *)

(** The last step of a rounding above the largest exponent. *)
Lemma round_finish_overflow (sx : bool) (m1 e0 : Z) :
  2 ^ 52 <= m1 <= 2 ^ 53 -> 971 < e0 ->
  (let '(mrs, e) := shr_fexp 53 1024 m1 e0 loc_Exact in
   match shr_m mrs with
   | Z0 => S754_zero sx
   | Zpos m =>
       if e <=? 1024 - 53 then S754_finite sx m e else S754_infinity sx
   | Zneg _ => S754_nan
   end)
  = S754_infinity sx.
Proof.
  intros Hm He.
  change (2 ^ 52) with 4503599627370496 in Hm.
  change (2 ^ 53) with 9007199254740992 in Hm.
  destruct m1 as [|p|p]; try lia.
  unfold shr_fexp. cbn [Zdigits2].
  destruct (Z.eq_dec (Zpos p) 9007199254740992) as [Hc|Hc].
  - injection Hc as ->.
    change (Zpos (digits2_pos 9007199254740992)) with 54.
    unfold fexp, emin. rewrite Z.max_l by lia.
    replace (54 + e0 - 53 - e0) with 1 by lia.
    cbn [shr shr_record_of_loc SpecFloat.iter_pos shr_1 shr_m].
    destruct (Z.leb_spec (e0 + 1) (1024 - 53)) as [|_]; [lia|reflexivity].
  - assert (Hd : Zpos (digits2_pos p) = 53)
      by (apply digits2_unique;
          change (2 ^ (53 - 1)) with 4503599627370496;
          change (2 ^ 53) with 9007199254740992; lia).
    rewrite Hd. unfold fexp, emin. rewrite Z.max_l by lia.
    replace (53 + e0 - 53 - e0) with 0 by lia.
    cbn [shr shr_record_of_loc shr_m].
    destruct (Z.leb_spec e0 (1024 - 53)) as [|_]; [lia|reflexivity].
Qed.

(** An int of more than 1024 binary digits has no float. *)
Lemma of_int_overflow (sx : bool) (p : positive) :
  2 ^ 1024 <= Zpos p -> binary_round 53 1024 sx p 0 = S754_infinity sx.
Proof.
  intros Hp. pose proof (digits2_bounds p) as [Dl Du].
  set (d := Zpos (digits2_pos p)) in *.
  assert (Hd : 1024 < d).
  { apply (Z.pow_lt_mono_r_iff 2); lia. }
  unfold binary_round. fold d.
  unfold shl_align, fexp at 1, emin. rewrite Z.max_l by lia.
  replace (d + 0 - 53 - 0) with (d - 53) by lia.
  destruct (d - 53) as [|np|np] eqn:En; try lia.
  unfold binary_round_aux.
  unfold shr_fexp at 1. cbn [Zdigits2]. fold d.
  unfold fexp at 1, emin. rewrite Z.max_l by lia.
  replace (d + 0 - 53 - 0) with (Zpos np) by lia.
  destruct (shr_exact (Zpos p) 0 np ltac:(lia)) as (mrs & -> & Hm & Hr).
  pose proof (round_nearest_even_cases mrs) as Hc. cbv zeta in Hc.
  set (m1 := round_nearest_even (shr_m mrs) (loc_of_shr_record mrs)) in *.
  rewrite Hm in Hc.
  pose proof (quotient_53_digits p (Zpos np) ltac:(lia) ltac:(fold d; lia))
    as Hq.
  apply round_finish_overflow; [|lia].
  change (2 ^ 53) with 9007199254740992 in *. lia.
Qed.

(** X6. An int of absolute value 2^1024 or more has no float: on it
    [int(z * 1.36)] and [int(z / 1.36)] raise, and so does the power logic
    of the console when such a number is typed as the kW figure, or as the
    horsepower with the kW line empty. *)
Theorem huge_power_raises (z : Z) :
  2 ^ 1024 <= Z.abs z ->
  Predict.hp_of_kw z = None /\ Predict.kw_of_hp z = None
  /\ (forall (py_int : string -> option Z) kw_line hp_line engine fuel,
        py_int kw_line = Some z -> kw_line <> "" ->
        Predict.power py_int kw_line hp_line engine fuel = None)
  /\ (forall (py_int : string -> option Z) hp_line engine fuel,
        py_int hp_line = Some z -> hp_line <> "" ->
        Predict.power py_int "" hp_line engine fuel = None).
Proof.
  intros Hz.
  assert (Hf : F64.of_int z = None).
  { unfold F64.of_int. change F64.prec with 53. change F64.emax with 1024.
    destruct z as [|p|p]; cbn [binary_normalize].
    - exfalso. change (Z.abs 0) with 0 in Hz.
      pose proof (Z.pow_pos_nonneg 2 1024 ltac:(lia) ltac:(lia)). lia.
    - now rewrite of_int_overflow.
    - now rewrite of_int_overflow. }
  assert (Hhp : Predict.hp_of_kw z = None).
  { unfold Predict.hp_of_kw, F64.int_mul. now rewrite Hf. }
  assert (Hkw : Predict.kw_of_hp z = None).
  { unfold Predict.kw_of_hp, F64.int_div. now rewrite Hf. }
  split; [exact Hhp|]. split; [exact Hkw|]. split.
  - intros py_int kl hl e f Hi Hk. unfold Predict.power.
    apply String.eqb_neq in Hk. rewrite Hk, Hi. cbn [negb].
    cbn [mbind option_bind]. now rewrite Hhp.
  - intros py_int hl e f Hi Hk. unfold Predict.power.
    apply String.eqb_neq in Hk. rewrite Hk, Hi.
    change (negb ("" =? "")%string) with false. cbn [negb].
    cbn [mbind option_bind]. now rewrite Hkw.
Qed.

Lemma huge_power_raises_witness :
  2 ^ 1024 <= Z.abs (2 ^ 1024)
  /\ Predict.hp_of_kw (2 ^ 1024) = None /\ Predict.kw_of_hp (2 ^ 1024) = None.
Proof.
  assert (H : 2 ^ 1024 <= Z.abs (2 ^ 1024)) by (vm_compute; discriminate).
  split; [exact H|].
  destruct (huge_power_raises (2 ^ 1024) H) as (H1 & H2 & _).
  split; assumption.
Defined.

(** ** The choice of the model *)

Lemma contains_empty (s : string) : PyStr.contains "" s = true.
Proof. apply contains_app. exists "", s. reflexivity. Qed.

Lemma intersperse_empty (s : string) : PyStr.intersperse "" s = s.
Proof.
  induction s as [|c s IH]; [reflexivity|].
  cbn [PyStr.intersperse]. rewrite append_empty. now rewrite IH.
Qed.

Lemma filter_all {A} (P : A -> Prop) `{forall x, Decision (P x)}
    (l : list A) :
  (forall x, P x) -> filter P l = l.
Proof.
  intros HP. induction l as [|x l IH]; [reflexivity|].
  rewrite filter_cons_True by apply HP. now rewrite IH.
Qed.

(** X7. With the empty brand string the search of both programs returns all
    the keys of the models, sorted, as many as the table has models, and
    the console displays each as the stripped key in title case. *)
Theorem empty_brand_lists_every_model (mp : table) :
  Predict.search (Some mp) "" = sorted (keys (models mp))
  /\ App.search mp "" = sorted (keys (models mp))
  /\ (forall m, m ∈ Predict.search (Some mp) "" <-> is_Some (models mp !! m))
  /\ length (Predict.search (Some mp) "") = size (models mp)
  /\ (forall m, Predict.display_name "" m = PyStr.title (PyStr.strip m)).
Proof.
  assert (E : Predict.search (Some mp) "" = sorted (keys (models mp))).
  { unfold Predict.search. rewrite filter_all; [reflexivity|].
    apply contains_empty. }
  split; [exact E|]. split; [exact E|].
  rewrite E. split; [|split].
  - intros m. now rewrite elem_of_sorted, elem_of_keys.
  - unfold sorted. rewrite merge_sort_Permutation. unfold keys.
    rewrite length_fmap. apply length_map_to_list.
  - intros m. unfold Predict.display_name, PyStr.replace.
    now rewrite intersperse_empty.
Qed.

(** X8. When the model line, stripped and lower-cased, is made of digits and
    reads as a number [n] between 1 and the number of the models listed,
    the choice of the model reads that one line and returns the [n]-th model
    of the list, which contains the brand string and is a key of the table;
    so its code is found, and the request for a model code returns it and
    reads no line. *)
Theorem model_by_number_is_found (py_int : string -> option Z)
    (py_float : string -> option spec_float) (mp : table)
    (brand_key line : string) (ins : list string) (n : Z) :
  let model_choice := PyStr.lower (PyStr.strip line) in
  let available := Predict.search (Some mp) brand_key in
  PyStr.isdigit model_choice = true ->
  py_int model_choice = Some n ->
  1 <= n <= Z.of_nat (length available) ->
  exists name code,
    Predict.select_model py_int (Some mp) brand_key available (line :: ins)
      = Some (name, ins)
    /\ available !! Z.to_nat (n - 1) = Some name
    /\ PyStr.contains brand_key name = true
    /\ (Predict.lookup (Some mp) brand_key name).2 = Some code
    /\ forall ins',
         Predict.or_manual py_float
           (Predict.lookup (Some mp) brand_key name).2 ins'
         = Some (Some code, ins').
Proof.
  intros model_choice available Hd Hn Hr.
  destruct (available !! Z.to_nat (n - 1)) as [name|] eqn:Hname.
  2: { apply lookup_ge_None in Hname. lia. }
  assert (Hin : name ∈ available) by (apply list_elem_of_lookup; eauto).
  unfold available, Predict.search in Hin.
  rewrite elem_of_sorted, list_elem_of_filter, elem_of_keys in Hin.
  destruct Hin as [Hc [code Hcode]].
  exists name, code.
  split.
  { unfold Predict.select_model. fold available.
    destruct available as [|m0 ms] eqn:Ha; [discriminate|].
    unfold mbind, Predict.io_bind, Predict.input. fold model_choice.
    rewrite Hd. unfold Predict.try_ at 1. rewrite Hn.
    destruct (Z.leb_spec 1 n); [|lia].
    destruct (Z.leb_spec n (Z.of_nat (length (m0 :: ms)))); [|lia].
    cbn [andb]. unfold Predict.try_. now rewrite Hname. }
  split; [reflexivity|]. split; [exact Hc|].
  unfold Predict.lookup. cbn [snd]. rewrite Hcode.
  split; [reflexivity|]. intros ins'. reflexivity.
Qed.

Lemma model_by_number_is_found_witness :
  (PyStr.isdigit (PyStr.lower (PyStr.strip " 2 ")) = true
   /\ Numeral.int (PyStr.lower (PyStr.strip " 2 ")) = Some 2
   /\ 1 <= 2 <= Z.of_nat (length (Predict.search (Some demo_table) "ford")))
  /\ exists name code,
       Predict.select_model Numeral.int (Some demo_table) "ford"
         (Predict.search (Some demo_table) "ford") [" 2 "; "2020"]
         = Some (name, ["2020"])
       /\ Predict.search (Some demo_table) "ford" !! Z.to_nat (2 - 1)
          = Some name
       /\ PyStr.contains "ford" name = true
       /\ (Predict.lookup (Some demo_table) "ford" name).2 = Some code
       /\ forall ins',
            Predict.or_manual Numeral.float
              (Predict.lookup (Some demo_table) "ford" name).2 ins'
            = Some (Some code, ins').
Proof.
  split.
  - split; [vm_compute; reflexivity|].
    split; [vm_compute; reflexivity|]. vm_compute. split; discriminate.
  - apply (model_by_number_is_found Numeral.int Numeral.float demo_table
             "ford" " 2 " ["2020"] 2).
    + vm_compute; reflexivity.
    + vm_compute; reflexivity.
    + vm_compute. split; discriminate.
Defined.

(** X9. When models are listed and the model line, stripped and lower-cased,
    is not made of digits, or reads as a number that is not between 1 and
    the number of the models listed, the line is taken as a name: the
    choice reads that one line and returns the brand, a space and the name
    when that is a key of the models, and the name as typed otherwise; the
    code of the model is then found in the table exactly when one of these
    two strings is a key. *)
Theorem model_by_name (py_int : string -> option Z) (mp : table)
    (brand_key line : string) (ins : list string) :
  let model_choice := PyStr.lower (PyStr.strip line) in
  let available := Predict.search (Some mp) brand_key in
  let with_brand := brand_key +:+ " " +:+ model_choice in
  let name :=
    if decide (is_Some (models mp !! with_brand)) then with_brand
    else model_choice in
  available <> [] ->
  PyStr.isdigit model_choice = false
  \/ (exists n, py_int model_choice = Some n
                /\ ~ 1 <= n <= Z.of_nat (length available)) ->
  Predict.select_model py_int (Some mp) brand_key available (line :: ins)
    = Some (name, ins)
  /\ (is_Some (Predict.lookup (Some mp) brand_key name).2 <->
      is_Some (models mp !! with_brand) \/ is_Some (models mp !! model_choice)).
Proof.
  intros model_choice available with_brand name Ha Hc.
  split.
  - unfold Predict.select_model. fold available.
    destruct available as [|m0 ms] eqn:Hav; [congruence|].
    unfold mbind, Predict.io_bind, Predict.input.
    fold model_choice. fold with_brand.
    destruct Hc as [Hd | (n & Hn & Hr)].
    + rewrite Hd. unfold name. destruct (decide _); reflexivity.
    + destruct (PyStr.isdigit model_choice).
      * unfold Predict.try_ at 1. rewrite Hn.
        destruct (Z.leb_spec 1 n); destruct (Z.leb_spec n
          (Z.of_nat (length (m0 :: ms)))); try lia; cbn [andb];
          unfold name; destruct (decide _); reflexivity.
      * unfold name. destruct (decide _); reflexivity.
  - unfold Predict.lookup. cbn [snd]. unfold name.
    destruct (decide (is_Some (models mp !! with_brand))) as [Hw|Hw];
      tauto.
Qed.

Lemma model_by_name_witness :
  (Predict.search (Some demo_table) "ford" <> []
   /\ (PyStr.isdigit (PyStr.lower (PyStr.strip "Mondeo")) = false
       \/ exists n, Numeral.int (PyStr.lower (PyStr.strip "Mondeo")) = Some n
            /\ ~ 1 <= n <= Z.of_nat
                   (length (Predict.search (Some demo_table) "ford"))))
  /\ Predict.select_model Numeral.int (Some demo_table) "ford"
       (Predict.search (Some demo_table) "ford") ["Mondeo"; "2020"]
     = Some ("ford mondeo", ["2020"]).
Proof.
  assert (H1 : Predict.search (Some demo_table) "ford" <> [])
    by (vm_compute; discriminate).
  assert (H2 : PyStr.isdigit (PyStr.lower (PyStr.strip "Mondeo")) = false
       \/ exists n, Numeral.int (PyStr.lower (PyStr.strip "Mondeo")) = Some n
            /\ ~ 1 <= n <= Z.of_nat
                   (length (Predict.search (Some demo_table) "ford")))
    by (left; vm_compute; reflexivity).
  split; [split; assumption|].
  pose proof (model_by_name Numeral.int demo_table "ford" "Mondeo" ["2020"]
                H1 H2) as [H _].
  exact H.
Defined.

(** X10. With a line to read, the choice of the model raises exactly when
    models are listed and the line, stripped and lower-cased, is made of
    digit characters that [int] does not read as a number; a name, and a
    number that is not in the list, never raise. *)
Theorem model_choice_raises (py_int : string -> option Z)
    (mappings : option table) (brand_key line : string)
    (available : list string) (ins : list string) :
  let model_choice := PyStr.lower (PyStr.strip line) in
  Predict.select_model py_int mappings brand_key available (line :: ins)
    = None
  <-> available <> [] /\ mappings <> None
      /\ PyStr.isdigit model_choice = true /\ py_int model_choice = None.
Proof.
  intros model_choice. unfold Predict.select_model.
  destruct available as [|m0 ms]; [|destruct mappings as [mp|]].
  - split; [discriminate | intros [H _]; congruence].
  - unfold mbind, Predict.io_bind, Predict.input. cbv zeta.
    fold model_choice.
    destruct (PyStr.isdigit model_choice).
    + unfold Predict.try_ at 1. destruct (py_int model_choice) as [n|].
      * split; [|intros (_ & _ & _ & ?); discriminate].
        destruct (Z.leb_spec 1 n); cbn [andb];
          [destruct (Z.leb_spec n (Z.of_nat (length (m0 :: ms))));
           cbn [andb]|];
          try (destruct (decide _); discriminate).
        unfold Predict.try_.
        destruct ((m0 :: ms) !! Z.to_nat (n - 1)) as [name|] eqn:E;
          [discriminate|].
        apply lookup_ge_None in E. lia.
      * split; [intros _; repeat split; congruence | reflexivity].
    + split; [destruct (decide _); discriminate
             | intros (_ & _ & ? & _); discriminate].
  - split; [discriminate | intros (_ & H & _); congruence].
Qed.

(** The superscript two is a digit for [isdigit] and no numeral for
    [int]: typed as the choice of the model, it ends the run. *)
Example model_choice_superscript :
  let two := String (ascii_of_nat 178) "" in
  PyStr.isdigit two = true
  /\ Numeral.int two = None
  /\ Predict.select_model Numeral.int (Some demo_table) "ford"
       (Predict.search (Some demo_table) "ford") [two; "2020"] = None.
Proof. vm_compute. auto. Qed.

(** ** The lines of a run *)

(** X11. A run of [get_prediction] that reaches the results has read exactly
    ten lines, and one more for each of the two codes that the table does
    not have, and it leaves the lines after those untouched; with fewer
    than ten lines every run raises. *)
Theorem run_reads_ten_to_twelve_lines (py_int : string -> option Z)
    (py_float : string -> option spec_float) (m_tech : list num -> R)
    (m_brand : list (option num) -> R) (mappings : option table) :
  let run := Predict.get_prediction py_int py_float m_tech m_brand mappings in
  let asked (enc : option num) : nat :=
    match enc with Some _ => 0%nat | None => 1%nat end in
  (forall line ins v rest,
     run (line :: ins) = Some (v, rest) ->
     let enc := Predict.lookup mappings (PyStr.lower (PyStr.strip line))
                  (Predict.full_model_name v) in
     exists used,
       line :: ins = used ++ rest
       /\ length used = (10 + asked enc.1 + asked enc.2)%nat)
  /\ (forall ins, (length ins < 10)%nat -> run ins = None).
Proof.
  intros run asked.
  assert (A : forall line ins v rest,
     run (line :: ins) = Some (v, rest) ->
     let enc := Predict.lookup mappings (PyStr.lower (PyStr.strip line))
                  (Predict.full_model_name v) in
     exists used,
       line :: ins = used ++ rest
       /\ length used = (10 + asked enc.1 + asked enc.2)%nat).
  { intros line ins v rest Hrun. unfold run in Hrun.
    apply get_prediction_inv in Hrun.
    destruct Hrun as (l_brand & ins1 & ins2 & l_year & l_engine & l_fuel
      & l_kw & l_hp & l_km & l_trans & l_cond & ins3 & ins4 & year & engine
      & km & b & m & H).
    cbv zeta in H.
    destruct H as (Hi & _ & _ & Hsel & Hi2 & _ & _ & _ & _ & _ & Hb & Hm & _).
    injection Hi as <- <-.
    apply select_model_reads_one in Hsel as [l_model ->]. subst ins2.
    cbv zeta.
    destruct (Predict.lookup mappings _ _) as [e1 e2]. cbn [fst snd] in *.
    apply or_manual_Some in Hb. apply or_manual_Some in Hm.
    destruct e1 as [c1|]; [destruct Hb as [-> ->]
                          | destruct Hb as (lb & xb & -> & _ & ->)];
      (destruct e2 as [c2|]; [destruct Hm as [-> ->]
                             | destruct Hm as (lm & xm & -> & _ & ->)]).
    - exists [line; l_model; l_year; l_engine; l_fuel; l_kw; l_hp; l_km;
              l_trans; l_cond]. split; reflexivity.
    - exists [line; l_model; l_year; l_engine; l_fuel; l_kw; l_hp; l_km;
              l_trans; l_cond; lm]. split; reflexivity.
    - exists [line; l_model; l_year; l_engine; l_fuel; l_kw; l_hp; l_km;
              l_trans; l_cond; lb]. split; reflexivity.
    - exists [line; l_model; l_year; l_engine; l_fuel; l_kw; l_hp; l_km;
              l_trans; l_cond; lb; lm]. split; reflexivity. }
  split; [exact A|].
  intros ins Hlen. destruct (run ins) as [[v rest]|] eqn:Hrun; [|reflexivity].
  exfalso. destruct ins as [|line ins].
  - unfold run in Hrun. discriminate.
  - apply A in Hrun as (used & Hu & Hl).
    apply (f_equal length) in Hu. rewrite length_app in Hu.
    rewrite Hu, Hl in Hlen. lia.
Qed.

(** X12. Without the mappings a run of [get_prediction] that reaches the
    results has listed no model, has taken the model line, stripped and
    lower-cased, for the name of the model, has read exactly twelve lines,
    and has in its brand vector the floats read from the eleventh and the
    twelfth line. *)
Theorem manual_encoding_mode (py_int : string -> option Z)
    (py_float : string -> option spec_float) (m_tech : list num -> R)
    (m_brand : list (option num) -> R) (ins : list string)
    (v : Predict.valuation) (rest : list string) :
  Predict.get_prediction py_int py_float m_tech m_brand None ins
    = Some (v, rest) ->
  exists l_brand l_model l_year l_engine l_fuel l_kw l_hp l_km l_trans
         l_cond l_brand_code l_model_code x y,
    ins = [l_brand; l_model; l_year; l_engine; l_fuel; l_kw; l_hp; l_km;
           l_trans; l_cond; l_brand_code; l_model_code] ++ rest
    /\ Predict.available_models v = []
    /\ Predict.full_model_name v = PyStr.lower (PyStr.strip l_model)
    /\ py_float l_brand_code = Some x
    /\ py_float l_model_code = Some y
    /\ Predict.brand_vector v = [Some (Float x); Some (Float y)].
Proof.
  intros Hrun. apply get_prediction_inv in Hrun.
  destruct Hrun as (l_brand & ins1 & ins2 & l_year & l_engine & l_fuel
    & l_kw & l_hp & l_km & l_trans & l_cond & ins3 & ins4 & year & engine
    & km & b & m & H).
  cbv zeta in H.
  destruct H as (Hi & Hav & _ & Hsel & Hi2 & _ & _ & _ & _ & _ & Hb & Hm
    & _ & Hbv & _).
  cbn [Predict.search Predict.lookup fst snd] in *.
  unfold Predict.select_model in Hsel.
  apply bind_Some in Hsel as (l_model & ins1' & Hin & Hsel).
  apply input_Some in Hin. apply ret_Some in Hsel as [Hname Hins].
  apply or_manual_Some in Hb as (lb & x & Hib & Hx & Hbx).
  apply or_manual_Some in Hm as (lm & y & Him & Hy & Hmy).
  exists l_brand, l_model, l_year, l_engine, l_fuel, l_kw, l_hp, l_km,
    l_trans, l_cond, lb, lm, x, y.
  split; [cbn [app]; congruence|].
  repeat split; auto; congruence.
Qed.

(** A run without the mappings. *)
Lemma demo_manual_runs (m_tech : list num -> R)
    (m_brand : list (option num) -> R) :
  is_Some (Predict.get_prediction Numeral.int Numeral.float m_tech m_brand
    None
    ["Ford"; "Mondeo "; "2020"; "1.6"; "diesel"; ""; ""; "80000"; "manual";
     "0.85"; "3"; "7.5"; "n"]).
Proof. apply (bool_decide_unpack _). vm_compute. reflexivity. Qed.

Lemma manual_encoding_mode_witness :
  exists v l_model x y rest,
    Predict.full_model_name v = PyStr.lower (PyStr.strip l_model)
    /\ Predict.brand_vector v = [Some (Float x); Some (Float y)]
    /\ ["Ford"; "Mondeo "; "2020"; "1.6"; "diesel"; ""; ""; "80000";
        "manual"; "0.85"; "3"; "7.5"; "n"] !! 1%nat = Some l_model
    /\ rest = ["n"].
Proof.
  destruct (demo_manual_runs (fun _ => 0%R) (fun _ => 0%R))
    as [[v rest] Hrun].
  destruct (manual_encoding_mode _ _ _ _ _ _ _ Hrun)
    as (l1 & l2 & l3 & l4 & l5 & l6 & l7 & l8 & l9 & l10 & l11 & l12 & x & y
        & Hi & _ & Hn & _ & _ & Hv).
  injection Hi as <- <- <- <- <- <- <- <- <- <- <- <- <-.
  exists v, "Mondeo ", x, y, ["n"]. auto.
Defined.

Lemma lower_char_idemp (c : ascii) :
  PyStr.lower_char (PyStr.lower_char c) = PyStr.lower_char c.
Proof. destruct c as [[] [] [] [] [] [] [] []]; reflexivity. Qed.

Lemma is_space_lower_char (c : ascii) :
  PyStr.is_space (PyStr.lower_char c) = PyStr.is_space c.
Proof. destruct c as [[] [] [] [] [] [] [] []]; reflexivity. Qed.

Lemma lower_idemp (s : string) : PyStr.lower (PyStr.lower s) = PyStr.lower s.
Proof.
  induction s as [|c s IH]; [reflexivity|].
  cbn [PyStr.lower]. now rewrite lower_char_idemp, IH.
Qed.

Lemma lower_lstrip (s : string) :
  PyStr.lstrip (PyStr.lower s) = PyStr.lower (PyStr.lstrip s).
Proof.
  induction s as [|c s IH]; [reflexivity|].
  cbn [PyStr.lower PyStr.lstrip]. rewrite is_space_lower_char.
  destruct (PyStr.is_space c); [exact IH | reflexivity].
Qed.

Lemma lower_rev_app (s t : string) :
  PyStr.lower (String.rev_app s t)
  = String.rev_app (PyStr.lower s) (PyStr.lower t).
Proof.
  revert t. induction s as [|c s IH]; intros t; [reflexivity|].
  cbn [String.rev_app PyStr.lower]. now rewrite IH.
Qed.

Lemma lower_rev (s : string) :
  PyStr.lower (String.rev s) = String.rev (PyStr.lower s).
Proof. apply (lower_rev_app s ""). Qed.

Lemma lower_strip (s : string) :
  PyStr.strip (PyStr.lower s) = PyStr.lower (PyStr.strip s).
Proof.
  unfold PyStr.strip, PyStr.rstrip.
  now rewrite lower_lstrip, <- lower_rev, lower_lstrip, lower_rev.
Qed.

(** A line that is stripped and lower-cased may be typed in lower case
    at once. *)
Lemma normal_lower (s : string) :
  PyStr.lower (PyStr.strip (PyStr.lower s)) = PyStr.lower (PyStr.strip s).
Proof. now rewrite lower_strip, lower_idemp. Qed.

Lemma run_input {A} (k : string -> Predict.io A) (line : string)
    (ins : list string) :
  (Predict.input ≫= k) (line :: ins) = k line ins.
Proof. reflexivity. Qed.

Lemma run_bind {A B} (c : Predict.io A) (k : A -> Predict.io B)
    (ins : list string) :
  (c ≫= k) ins
  = match c ins with
    | Some (a, ins') => k a ins'
    | None => None
    end.
Proof. reflexivity. Qed.

Section letter_case.
Variable py_int : string -> option Z.
Variable py_float : string -> option spec_float.
Variable m_tech : list num -> R.
Variable m_brand : list (option num) -> R.
Variable mappings : option table.

Lemma select_model_lower (brand_key : string) (available : list string)
    (line : string) (ins : list string) :
  Predict.select_model py_int mappings brand_key available
    (PyStr.lower line :: ins)
  = Predict.select_model py_int mappings brand_key available (line :: ins).
Proof.
  unfold Predict.select_model.
  destruct available as [|m0 ms]; [|destruct mappings as [mp|]];
    unfold mbind, Predict.io_bind, Predict.input; cbv zeta;
    now rewrite normal_lower.
Qed.

(** Choosing the model reads one line and hands on the others. *)
Lemma select_model_cons (brand_key : string) (available : list string)
    (line : string) (ins : list string) :
  Predict.select_model py_int mappings brand_key available (line :: ins)
  = (fun r => (r.1, ins))
      <$> Predict.select_model py_int mappings brand_key available [line].
Proof.
  unfold Predict.select_model.
  destruct available as [|m0 ms]; [|destruct mappings as [mp|]];
    unfold mbind, Predict.io_bind, Predict.input; cbv zeta;
    try reflexivity.
  destruct (PyStr.isdigit _); [|destruct (decide _); reflexivity].
  unfold Predict.try_ at 1 3. destruct (py_int _) as [n|]; [|reflexivity].
  destruct (_ && _); [|destruct (decide _); reflexivity].
  unfold Predict.try_. destruct (_ !! _); reflexivity.
Qed.

(** X13. Lower-casing the lines typed for the brand, the model, the fuel and
    the transmission changes nothing in a run of [get_prediction]: it
    raises or not as before, computes the same valuation and leaves the
    same lines. *)
Theorem letter_case_is_ignored
    (l_brand l_model l_year l_engine l_fuel l_kw l_hp l_km l_trans : string)
    (ins : list string) :
  Predict.get_prediction py_int py_float m_tech m_brand mappings
    (PyStr.lower l_brand :: PyStr.lower l_model :: l_year :: l_engine
     :: PyStr.lower l_fuel :: l_kw :: l_hp :: l_km :: PyStr.lower l_trans
     :: ins)
  = Predict.get_prediction py_int py_float m_tech m_brand mappings
      (l_brand :: l_model :: l_year :: l_engine :: l_fuel :: l_kw :: l_hp
       :: l_km :: l_trans :: ins).
Proof.
  unfold Predict.get_prediction.
  rewrite !run_input. cbv beta zeta. rewrite !normal_lower, !run_bind.
  rewrite (select_model_cons _ _ (PyStr.lower l_model)).
  rewrite (select_model_cons _ _ l_model), select_model_lower.
  destruct (Predict.select_model _ _ _ _ _) as [[name ins1]|]; [|reflexivity].
  cbn [fmap option_fmap option_map fst].
  unfold mbind, Predict.io_bind, Predict.input, Predict.try_.
  cbv beta iota zeta.
  destruct (py_int l_year) as [year|]; [|reflexivity].
  destruct (py_float l_engine) as [engine|]; [|reflexivity].
  rewrite !normal_lower.
  destruct (Predict.power _ _ _ _ _) as [[kw hp]|]; [|reflexivity].
  cbv beta iota zeta.
  destruct (py_int l_km) as [km|]; [|reflexivity].
  cbv beta iota zeta. rewrite !normal_lower. reflexivity.
Qed.

End letter_case.

Section reaches.
Variable py_int : string -> option Z.
Variable py_float : string -> option spec_float.
Variable m_tech : list num -> R.
Variable m_brand : list (option num) -> R.
Variable mappings : option table.

(** The request for a code returns exactly when the code is found or the
    next line reads as a float. *)
Lemma or_manual_is_Some (enc : option num) (ins : list string) :
  is_Some (Predict.or_manual py_float enc ins) <->
  is_Some enc \/ exists line, head ins = Some line /\ is_Some (py_float line).
Proof.
  destruct (Predict.or_manual py_float enc ins) as [[r ins']|] eqn:E.
  - apply or_manual_Some in E. split; [intros _ | eauto].
    destruct enc as [c|]; [left; eauto|].
    destruct E as (line & x & -> & Hx & _). right. exists line.
    rewrite Hx. eauto.
  - apply or_manual_None in E as [-> E]. split.
    + intros [x Hx]. discriminate.
    + intros [[x Hx]|(line & Hl & [x Hx])]; [discriminate|].
      destruct ins as [|l ins]; [discriminate|]. injection Hl as ->.
      congruence.
Qed.




End reaches.

(** ** The price and the range that is printed *)










(** ** The console and the page on the same car *)

(** The vectors and the price of a run of the web page. *)
Lemma app_run_vectors (m_tech : list num -> R)
    (m_brand : list (option num) -> R) (mp : table) (w : App.widgets)
    (v : App.valuation) :
  App.run m_tech m_brand mp w = Some v ->
  App.button w = true
  /\ App.tech_vector v
     = Predict.build_tech_vector (App.year w) (App.kw v) (App.hp v)
         (App.km_input_val w) (App.engine w) (App.trans w) (App.fuel w)
  /\ App.final_price v
     = Predict.combine (m_tech (App.tech_vector v))
         (m_brand (App.brand_vector v)) <$> F64.to_R (App.cond_input_val w).
Proof.
  unfold App.run.
  destruct (_ !! App.brand_choice w) as [label|]; [|discriminate]. simpl.
  destruct (App.power _ _ _ _) as [[kw hp]|]; [|discriminate]. simpl.
  destruct (App.button w); [|discriminate].
  destruct (match App.search mp (PyStr.lower label) with
            | [] => None
            | _ :: _ => _ end) as [name|]; [|discriminate].
  destruct (String.eqb name ""); [discriminate|].
  rewrite app_build_tech_vector. simpl. intros [= <-]. simpl.
  repeat split.
Qed.

(** A number of the list typed as the choice of the model. *)
Lemma select_model_number (py_int : string -> option Z) (mp : table)
    (brand_key line : string) (available : list string) (ins : list string)
    (n : Z) (name : string) :
  PyStr.isdigit (PyStr.lower (PyStr.strip line)) = true ->
  py_int (PyStr.lower (PyStr.strip line)) = Some n ->
  available !! Z.to_nat (n - 1) = Some name -> 1 <= n ->
  Predict.select_model py_int (Some mp) brand_key available (line :: ins)
  = Some (name, ins).
Proof.
  intros Hd Hn Hname H1.
  pose proof (lookup_lt_Some _ _ _ Hname) as Hlt.
  unfold Predict.select_model.
  destruct available as [|m0 ms] eqn:Ha; [discriminate|].
  unfold mbind, Predict.io_bind, Predict.input. cbv zeta.
  rewrite Hd. unfold Predict.try_ at 1. rewrite Hn.
  destruct (Z.leb_spec 1 n); [|lia].
  destruct (Z.leb_spec n (Z.of_nat (length (m0 :: ms)))); [|lia].
  cbn [andb]. unfold Predict.try_. now rewrite Hname.
Qed.

(** X18. When the console and the page are given the same car and both reach
    a price, they have computed the same: the brand line is, stripped and
    lower-cased, the lower-cased label of the brand chosen on the page and
    a key of the brands; the model line is the number in the list of the
    model chosen on the page; the year, the displacement, the mileage and
    the condition read as the values of the widgets; the fuel and the
    transmission are, stripped and lower-cased, those of the widgets; and
    the power logic returns the same on both sides. Then the models found
    and their display, the model, the kW and the horsepower, the two vectors
    handed to the regressors and the price are equal, and the console has
    asked for no code. *)
Theorem console_and_page_agree (py_int : string -> option Z)
    (py_float : string -> option spec_float) (m_tech : list num -> R)
    (m_brand : list (option num) -> R) (mp : table) (w : App.widgets)
    (va : App.valuation) (b : string)
    (l_brand l_model l_year l_engine l_fuel l_kw l_hp l_km l_trans l_cond
       : string)
    (rest rest' : list string) (v : Predict.valuation) :
  App.run m_tech m_brand mp w = Some va ->
  Predict.get_prediction py_int py_float m_tech m_brand (Some mp)
    (l_brand :: l_model :: l_year :: l_engine :: l_fuel :: l_kw :: l_hp
     :: l_km :: l_trans :: l_cond :: rest) = Some (v, rest') ->
  App.brand_list mp !! App.brand_choice w = Some b ->
  PyStr.lower (PyStr.strip l_brand) = PyStr.lower (PyStr.title b) ->
  is_Some (brands mp !! PyStr.lower (PyStr.title b)) ->
  PyStr.isdigit (PyStr.lower (PyStr.strip l_model)) = true ->
  py_int (PyStr.lower (PyStr.strip l_model))
    = Some (Z.of_nat (App.model_idx w) + 1) ->
  py_int l_year = Some (App.year w) ->
  py_float l_engine = Some (App.engine w) ->
  PyStr.lower (PyStr.strip l_fuel) = App.fuel w ->
  Predict.power py_int (PyStr.strip l_kw) (PyStr.strip l_hp) (App.engine w)
    (App.fuel w)
  = App.power (App.kw_input w) (App.hp_input w) (App.engine w) (App.fuel w) ->
  py_int l_km = Some (App.km_input_val w) ->
  PyStr.lower (PyStr.strip l_trans) = App.trans w ->
  py_float l_cond = Some (App.cond_input_val w) ->
  Predict.available_models v = App.available_models va
  /\ Predict.display_names v = App.display_models va
  /\ Predict.full_model_name v = App.full_model_name va
  /\ Predict.kw v = App.kw va /\ Predict.hp v = App.hp va
  /\ Predict.tech_vector v = App.tech_vector va
  /\ Predict.brand_vector v = App.brand_vector va
  /\ Predict.price v = App.final_price va
  /\ rest' = rest.
Proof.
  intros Ha Hc Hb Hbrand Hkey Hd Hn Hyear Hengine Hfuel Hpower Hkm Htrans
    Hcond.
  destruct (app_run_vectors _ _ _ _ _ Ha) as (_ & Hatv & Haprice).
  apply app_run_inv in Ha
    as (b' & Hb' & Hsel & Hav & Hdisp & Hname & _ & Hapow & Habv).
  rewrite Hb in Hb'. injection Hb' as <-.
  apply get_prediction_inv in Hc.
  destruct Hc as (l_brand' & ins1 & ins2 & l_year' & l_engine' & l_fuel'
    & l_kw' & l_hp' & l_km' & l_trans' & l_cond' & ins3 & ins4 & year
    & engine & km & cb & cm & H).
  cbv zeta in H.
  destruct H as (Hi & Hcav & Hcdisp & Hcsel & Hi2 & Hcyear & Hcengine
    & Hcpow & Hckm & Hccond & Hcb & Hcm & Hctv & Hcbv & Hcprice).
  injection Hi as <- <-.
  rewrite Hbrand, <- Hsel in *.
  change (Predict.search (Some mp) (App.selected_brand va))
    with (App.search mp (App.selected_brand va)) in *.
  rewrite <- Hav in *.
  assert (Hidx : App.available_models va
                   !! Z.to_nat (Z.of_nat (App.model_idx w) + 1 - 1)
                 = Some (App.full_model_name va)).
  { replace (Z.of_nat (App.model_idx w) + 1 - 1)
      with (Z.of_nat (App.model_idx w)) by lia.
    now rewrite Nat2Z.id. }
  rewrite (select_model_number py_int mp _ l_model _ _ _ _ Hd Hn Hidx
             ltac:(lia)) in Hcsel.
  injection Hcsel as Hfull <-.
  injection Hi2 as <- <- <- <- <- <- <- <- <-.
  rewrite Hyear in Hcyear. injection Hcyear as <-.
  rewrite Hengine in Hcengine. injection Hcengine as <-.
  rewrite Hkm in Hckm. injection Hckm as <-.
  rewrite Hcond in Hccond. injection Hccond as Hcc.
  rewrite Hfuel, Hpower, Hapow in Hcpow. injection Hcpow as Hkw Hhp.
  rewrite Hfuel, Htrans, <- Hkw, <- Hhp, <- Hatv in Hctv.
  assert (Hmk : is_Some (models mp !! App.full_model_name va)).
  { assert (Hin : App.full_model_name va ∈ App.available_models va)
      by (apply list_elem_of_lookup; eauto).
    rewrite Hav in Hin. unfold App.search in Hin.
    rewrite elem_of_sorted, list_elem_of_filter, elem_of_keys in Hin.
    tauto. }
  rewrite <- Hfull in *.
  unfold Predict.lookup in Hcb, Hcm. cbn [fst snd] in Hcb, Hcm.
  destruct Hkey as [c1 Hc1], Hmk as [c2 Hc2].
  rewrite Hc1 in Hcb. rewrite Hc2 in Hcm.
  apply or_manual_Some in Hcb as [-> ->].
  apply or_manual_Some in Hcm as [-> ->].
  assert (Hbv : Predict.brand_vector v = App.brand_vector va)
    by (rewrite Hcbv, Habv, Hc1, Hc2; reflexivity).
  assert (Hpr : Predict.price v = App.final_price va).
  { rewrite Hcprice, Haprice, Hctv, Hbv, Hcc. reflexivity. }
  repeat split; auto; try congruence.
  rewrite Hcdisp, Hdisp, Hcav. reflexivity.
Qed.

(** The Ford Mondeo as the second model of the list, on the page and on
    the console. *)
Lemma demo_page_runs (m_tech : list num -> R)
    (m_brand : list (option num) -> R) :
  is_Some (App.run m_tech m_brand demo_table
    {| App.brand_choice := 0; App.model_idx := 1; App.year := 2020;
       App.engine := F64.f1_6; App.fuel := "diesel";
       App.trans := "manual"; App.km_input_val := 80000;
       App.cond_input_val := F64.literal 85 100; App.kw_input := 0;
       App.hp_input := 0; App.button := true |}).
Proof. apply (bool_decide_unpack _). vm_compute. reflexivity. Qed.

Lemma demo_console_runs (m_tech : list num -> R)
    (m_brand : list (option num) -> R) :
  is_Some (Predict.get_prediction Numeral.int Numeral.float m_tech m_brand
    (Some demo_table)
    ["FORD"; "2"; "2020"; "1.6"; "Diesel"; ""; ""; "80000"; "manual";
     "0.85"; "y"]).
Proof. apply (bool_decide_unpack _). vm_compute. reflexivity. Qed.

Lemma console_and_page_agree_witness :
  exists va v rest',
    Predict.tech_vector v = App.tech_vector va
    /\ Predict.brand_vector v = App.brand_vector va
    /\ Predict.price v = App.final_price va
    /\ rest' = ["y"].
Proof.
  pose (w := {| App.brand_choice := 0; App.model_idx := 1; App.year := 2020;
       App.engine := F64.f1_6; App.fuel := "diesel";
       App.trans := "manual"; App.km_input_val := 80000;
       App.cond_input_val := F64.literal 85 100; App.kw_input := 0;
       App.hp_input := 0; App.button := true |}).
  destruct (demo_page_runs (fun _ => 0%R) (fun _ => 0%R)) as [va Ha].
  destruct (demo_console_runs (fun _ => 0%R) (fun _ => 0%R))
    as [[v rest'] Hc].
  exists va, v, rest'.
  assert (H := console_and_page_agree Numeral.int Numeral.float
    (fun _ => 0%R) (fun _ => 0%R) demo_table w va "ford"
    "FORD" "2" "2020" "1.6" "Diesel" "" "" "80000" "manual" "0.85" ["y"]
    rest' v Ha Hc).
  destruct H as (_ & _ & _ & _ & _ & H1 & H2 & H3 & H4);
    try (vm_compute; reflexivity).
  - exists (Int 3). vm_compute. reflexivity.
  - auto.
Defined.






(** X20. For a kW box in [0, 2^46) and a horsepower box in [0, 2^47) the
    power logic of the page does not fail and returns [0 <= kw <= hp]: the
    kW of the box when it is positive, else the horsepower of the box when
    that is positive, else the fallback estimate. *)
Theorem page_power_in_range (kw_input hp_input : Z) (engine : spec_float)
    (fuel : string) :
  0 <= kw_input < 2 ^ 46 -> 0 <= hp_input < 2 ^ 47 ->
  exists kw hp,
    App.power kw_input hp_input engine fuel = Some (kw, hp)
    /\ 0 <= kw <= hp
    /\ (0 < kw_input -> kw = kw_input)
    /\ (kw_input = 0 -> 0 < hp_input -> hp = hp_input)
    /\ (kw_input = 0 -> hp_input = 0 ->
        kw = App.estimate_kw_from_engine engine fuel).
Proof.
  intros Hk Hh. unfold App.power.
  change (App.estimate_kw_from_engine engine fuel)
    with (Predict.estimate_kw_from_engine engine fuel).
  change (F64.int_mul ?k F64.f1_36 ≫= F64.to_int) with (Predict.hp_of_kw k).
  change (F64.int_div ?k F64.f1_36 ≫= F64.to_int) with (Predict.kw_of_hp k).
  change (2 ^ 46) with 70368744177664 in Hk.
  change (2 ^ 47) with 140737488355328 in Hh.
  destruct (Z.ltb_spec 0 kw_input) as [Hpos|Hzero].
  - rewrite hp_of_kw_exact
      by (change (2 ^ 46) with 70368744177664; lia).
    eexists _, _. split; [reflexivity|].
    rewrite Z.quot_div_nonneg by lia.
    assert (kw_input <= 34 * kw_input / 25)
      by (apply Z.div_le_lower_bound; lia).
    repeat split; intros; lia.
  - destruct (Z.ltb_spec 0 hp_input) as [Hhpos|Hhzero].
    + destruct (kw_of_hp_bounds hp_input) as (kw & -> & Hb & He).
      { change (2 ^ 47) with 140737488355328. lia. }
      exists kw, hp_input. split; [reflexivity|].
      assert (25 * hp_input / 34 <= hp_input)
        by (apply Z.div_le_upper_bound; lia).
      assert (0 <= kw).
      { destruct (Z.eq_dec (hp_input mod 34) 0) as [Hm|Hm].
        - assert (25 <= 25 * hp_input / 34); [|lia].
          apply Z.div_le_lower_bound; [lia|].
          pose proof (Z.div_mod hp_input 34 ltac:(lia)) as Hdm.
          rewrite Hm in Hdm. lia.
        - rewrite (He Hm). apply Z.div_pos; lia. }
      repeat split; intros; lia.
    + destruct (estimate_hp engine fuel) as (hp & -> & Hin).
      exists (Predict.estimate_kw_from_engine engine fuel), hp.
      split; [reflexivity|].
      rewrite !elem_of_cons, elem_of_nil in Hin.
      destruct Hin as [H|[H|[H|[H|[H|[H|[H|[]]]]]]]];
        injection H as -> ->; repeat split; intros; lia.
Qed.

Lemma page_power_in_range_witness :
  (0 <= 0 < 2 ^ 46 /\ 0 <= 136 < 2 ^ 47)
  /\ exists kw hp,
       App.power 0 136 F64.f1_6 "petrol" = Some (kw, hp)
       /\ 0 <= kw <= hp
       /\ (0 = 0 -> 0 < 136 -> hp = 136).
Proof.
  assert (H1 : 0 <= 0 < 2 ^ 46) by (split; [lia | reflexivity]).
  assert (H2 : 0 <= 136 < 2 ^ 47) by (split; [lia | reflexivity]).
  split; [split; assumption|].
  destruct (page_power_in_range 0 136 F64.f1_6 "petrol" H1 H2)
    as (kw & hp & Hp & Hr & _ & Hh & _).
  exists kw, hp. auto.
Defined.


(** ** The session *)

Lemma agrees_input : Console.agrees Predict.input Console.input.
Proof.
  intros [|line ins]; simpl.
  - exists []. split; reflexivity.
  - split; [reflexivity|]. apply suffix_cons_r. reflexivity.
Qed.

Lemma agrees_try {A} (o : option A) :
  Console.agrees (Predict.try_ o) (Console.try_ o).
Proof.
  intros ins. unfold Predict.try_, Console.try_. destruct o as [a|].
  - split; reflexivity.
  - exists ins. split; reflexivity.
Qed.

Lemma agrees_ret {A} (a : A) : Console.agrees (mret a) (mret a).
Proof. intros ins. split; reflexivity. Qed.

Lemma agrees_bind {A B} (c : Predict.io A) (e : Console.eio A)
    (k : A -> Predict.io B) (k' : A -> Console.eio B) :
  Console.agrees c e -> (forall a, Console.agrees (k a) (k' a)) ->
  Console.agrees (c ≫= k) (e ≫= k').
Proof.
  intros Hc Hk ins. specialize (Hc ins).
  unfold mbind, Predict.io_bind, Console.eio_bind.
  destruct (c ins) as [[a ins1]|].
  - destruct Hc as [-> Hs]. specialize (Hk a ins1).
    destruct (k a ins1) as [[b ins2]|].
    + destruct Hk as [-> Hs2]. split; [reflexivity|]. now transitivity ins1.
    + destruct Hk as (rest & -> & Hs2). exists rest.
      split; [reflexivity|]. now transitivity ins1.
  - destruct Hc as (rest & -> & Hs). exists rest. split; [reflexivity|exact Hs].
Qed.

Lemma agrees_reading_one {A} (c : Predict.io A) :
  (forall ins a rest, c ins = Some (a, rest) -> rest `suffix_of` ins) ->
  Console.agrees c (Console.reading_one c).
Proof.
  intros Hc ins. unfold Console.reading_one.
  destruct (c ins) as [[a rest]|] eqn:E.
  - split; [reflexivity|]. eapply Hc, E.
  - exists (tail ins). split; [reflexivity|].
    destruct ins; [reflexivity|]. apply suffix_cons_r. reflexivity.
Qed.

Section console.
Variable py_int : string -> option Z.
Variable py_float : string -> option spec_float.
Variable m_tech : list num -> R.
Variable m_brand : list (option num) -> R.
Variable mappings : option table.

Lemma get_prediction_agrees :
  Console.agrees
    (Predict.get_prediction py_int py_float m_tech m_brand mappings)
    (Console.get_prediction py_int py_float m_tech m_brand mappings).
Proof.
  unfold Predict.get_prediction, Console.get_prediction.
  apply agrees_bind; [apply agrees_input | intros l_brand; cbv zeta].
  apply agrees_bind.
  { apply agrees_reading_one. intros ins a rest H.
    apply select_model_reads_one in H as [line ->].
    apply suffix_cons_r. reflexivity. }
  intros name.
  apply agrees_bind; [apply agrees_input | intros l_year].
  apply agrees_bind; [apply agrees_try | intros year].
  apply agrees_bind; [apply agrees_input | intros l_engine].
  apply agrees_bind; [apply agrees_try | intros engine].
  apply agrees_bind; [apply agrees_input | intros l_fuel].
  apply agrees_bind; [apply agrees_input | intros l_kw].
  apply agrees_bind; [apply agrees_input | intros l_hp].
  apply agrees_bind; [apply agrees_try | intros [kw hp]].
  apply agrees_bind; [apply agrees_input | intros l_km].
  apply agrees_bind; [apply agrees_try | intros km].
  apply agrees_bind; [apply agrees_input | intros l_trans].
  apply agrees_bind; [apply agrees_input | intros l_cond].
  apply agrees_bind; [apply agrees_try | intros cond].
  destruct (Predict.lookup _ _ _) as [b_enc m_enc].
  assert (Hm : forall enc, Console.agrees (Predict.or_manual py_float enc)
                 (Console.reading_one (Predict.or_manual py_float enc))).
  { intros enc. apply agrees_reading_one. intros ins a rest H.
    apply or_manual_Some in H. destruct enc as [c|].
    - destruct H as [_ ->]. reflexivity.
    - destruct H as (line & x & -> & _). apply suffix_cons_r. reflexivity. }
  apply agrees_bind; [apply Hm | intros b].
  apply agrees_bind; [apply Hm | intros m].
  apply agrees_ret.
Qed.

(** The call leaves a part of the lines it was given. *)
Lemma get_prediction_suffix (ins : list string) :
  (Console.get_prediction py_int py_float m_tech m_brand mappings ins).2
    `suffix_of` ins.
Proof.
  pose proof (get_prediction_agrees ins) as H.
  destruct (Predict.get_prediction _ _ _ _ _ ins) as [[v rest]|].
  - destruct H as [-> Hs]. exact Hs.
  - destruct H as (rest & -> & Hs). exact Hs.
Qed.

Lemma loop_unfold (fuel : nat) (ins : list string) :
  Console.loop py_int py_float m_tech m_brand mappings (S fuel) ins =
  let '(outcome, ins1) :=
    Console.get_prediction py_int py_float m_tech m_brand mappings ins in
  match ins1 with
  | [] => Some {| Console.valuations := [outcome];
                  Console.ended := Console.EndOfInput;
                  Console.unread := [] |}
  | line :: ins2 =>
      if String.eqb (PyStr.lower (PyStr.strip line)) "y" then
        s ← Console.loop py_int py_float m_tech m_brand mappings fuel ins2;
        Some {| Console.valuations := outcome :: Console.valuations s;
                Console.ended := Console.ended s;
                Console.unread := Console.unread s |}
      else Some {| Console.valuations := [outcome];
                   Console.ended := Console.Goodbye;
                   Console.unread := ins2 |}
  end.
Proof. reflexivity. Qed.

(** More fuel than lines is enough, and more changes nothing. *)
Lemma loop_fuel (fuel : nat) :
  forall ins, (length ins < fuel)%nat ->
    Console.loop py_int py_float m_tech m_brand mappings fuel ins
    = Console.loop py_int py_float m_tech m_brand mappings (S (length ins)) ins
    /\ is_Some (Console.loop py_int py_float m_tech m_brand mappings fuel
                  ins).
Proof.
  induction fuel as [fuel IH] using lt_wf_ind. intros ins Hlen.
  destruct fuel as [|fuel]; [lia|].
  rewrite !loop_unfold.
  pose proof (get_prediction_suffix ins) as Hs.
  destruct (Console.get_prediction _ _ _ _ _ ins) as [o ins1].
  cbn [snd] in Hs. destruct ins1 as [|line ins2]; [split; eauto|].
  apply suffix_length in Hs. cbn [length] in Hs.
  destruct (String.eqb _ _); [|split; eauto].
  destruct (IH fuel ltac:(lia) ins2 ltac:(lia)) as [E1 [s1 Hs1]].
  destruct (IH (length ins) ltac:(lia) ins2 ltac:(lia)) as [E2 _].
  rewrite E2, <- E1, Hs1. split; eauto.
Qed.


Lemma loop_session (fuel : nat) :
  forall ins s,
    Console.loop py_int py_float m_tech m_brand mappings fuel ins = Some s ->
    Console.unread s `suffix_of` ins
    /\ Console.valuations s <> []
    /\ Console.ended s <> Console.NoModels
    /\ (Console.ended s = Console.EndOfInput -> Console.unread s = [])
    /\ (length (Console.valuations s) + length (Console.unread s)
        <= length ins
           + match Console.ended s with
             | Console.EndOfInput => 1
             | _ => 0
             end)%nat.
Proof.
  induction fuel as [|fuel IH]; intros ins s; [discriminate|].
  rewrite loop_unfold.
  pose proof (get_prediction_suffix ins) as Hs.
  destruct (Console.get_prediction _ _ _ _ _ ins) as [o ins1].
  cbn [snd] in Hs. destruct ins1 as [|line ins2].
  { intros [= <-]. cbn.
    split; [apply suffix_nil|]. repeat split; try congruence; try lia. }
  assert (Hs2 : ins2 `suffix_of` ins).
  { etransitivity; [|exact Hs]. apply suffix_cons_r. reflexivity. }
  pose proof (suffix_length _ _ Hs) as Hl. cbn [length] in Hl.
  destruct (String.eqb _ _).
  - destruct (Console.loop _ _ _ _ _ fuel ins2) as [s'|] eqn:E;
      [|discriminate].
    intros [= <-]. cbn.
    destruct (IH ins2 s' E) as (H1 & H2 & H3 & H4 & H5).
    split; [now transitivity ins2|].
    split; [congruence|]. split; [exact H3|]. split; [exact H4|].
    destruct (Console.ended s'); lia.
  - intros [= <-]. cbn. split; [exact Hs2|].
    repeat split; try congruence; try lia.
Qed.

End console.


(** X23. On every input [main] ends. It returns without a call of
    [get_prediction] and without reading a line exactly when
    [load_resources] has returned [None] for a model; otherwise it calls
    [get_prediction] at least once. The lines left unread are the last ones
    of the input: none when the end of the input stops the program, and
    when [main] says goodbye every call was followed by an answer, so that
    the calls and the unread lines together are at most the lines of the
    input. *)
Theorem main_ends_the_session {model : Type}
    (predict_tech : model -> list num -> R)
    (predict_brand : model -> list (option num) -> R)
    (py_int : string -> option Z) (py_float : string -> option spec_float)
    (d : disk model) (ins : list string) :
  exists s,
    Console.main predict_tech predict_brand py_int py_float d ins = Some s
    /\ Console.unread s `suffix_of` ins
    /\ (Console.ended s = Console.NoModels <->
        (Console.load_resources d).1.1 = None
        \/ (Console.load_resources d).1.2 = None)
    /\ (Console.ended s = Console.NoModels ->
        Console.valuations s = [] /\ Console.unread s = ins)
    /\ (Console.ended s <> Console.NoModels -> Console.valuations s <> [])
    /\ (Console.ended s = Console.EndOfInput -> Console.unread s = [])
    /\ (Console.ended s = Console.Goodbye ->
        (length (Console.valuations s) + length (Console.unread s)
         <= length ins)%nat).
Proof.
  unfold Console.main.
  destruct (Console.load_resources d) as [[[t|] [b|]] mp]; cbn [fst snd];
    try (eexists; split; [reflexivity|]; cbn;
         repeat split; try congruence; try tauto; eauto; fail).
  destruct (loop_fuel py_int py_float (predict_tech t) (predict_brand b) mp
              (S (length ins)) ins ltac:(lia)) as [_ [s Hs]].
  exists s. split; [exact Hs|].
  destruct (loop_session _ _ _ _ _ _ _ _ Hs) as (H1 & H2 & H3 & H4 & H5).
  split; [exact H1|]. split.
  { split; [congruence | intros [?|?]; discriminate]. }
  split; [congruence|]. split; [auto|]. split; [exact H4|].
  intros E. rewrite E in H5. lia.
Qed.



(** A session of two calls: the year of the first is not a number, the
    error is reported, the answer is yes, and the second call values the
    car. *)
Example session_after_an_error :
  let d := {| tech_model_pkl := Some tt; brand_model_pkl := Some tt;
              mappings_json := Some (Some demo_table) |} in
  let ins := ["Ford"; "mondeo"; "twenty"; "Y "] ++ mondeo_lines ++ ["n"] in
  (fun s => (fmap (M := option) Predict.hp <$> Console.valuations s,
             Console.ended s,
             Console.unread s))
    <$> Console.main (fun _ _ => 0%R) (fun _ _ => 0%R) Numeral.int
          Numeral.float d ins
  = Some ([None; Some 149], Console.Goodbye, []).
Proof. vm_compute. reflexivity. Qed.

Lemma run_input_e {A} (k : string -> Console.eio A) (line : string)
    (ins : list string) :
  (Console.input ≫= k) (line :: ins) = k line ins.
Proof. reflexivity. Qed.

Lemma run_bind_e {A B} (c : Console.eio A) (k : A -> Console.eio B)
    (ins : list string) :
  (c ≫= k) ins
  = match c ins with
    | (Some a, ins') => k a ins'
    | (None, ins') => (None, ins')
    end.
Proof. reflexivity. Qed.

(** X25. When the year typed is not a number, and the choice of the model
    has not raised, the call of [get_prediction] reports the error with
    three lines read, so that [main] takes the fourth line for the answer;
    when that is not [y] the session ends there, with one call, no
    valuation and the lines after the answer unread. *)
Theorem error_stops_the_reading {model : Type}
    (predict_tech : model -> list num -> R)
    (predict_brand : model -> list (option num) -> R)
    (py_int : string -> option Z) (py_float : string -> option spec_float)
    (d : disk model) (tech_model brand_model : model)
    (mappings : option table)
    (l_brand l_model l_year answer : string) (ins : list string) :
  Console.load_resources d = (Some tech_model, Some brand_model, mappings) ->
  is_Some (Predict.select_model py_int mappings
             (PyStr.lower (PyStr.strip l_brand))
             (Predict.search mappings (PyStr.lower (PyStr.strip l_brand)))
             [l_model]) ->
  py_int l_year = None ->
  Console.get_prediction py_int py_float (predict_tech tech_model)
    (predict_brand brand_model) mappings
    (l_brand :: l_model :: l_year :: answer :: ins)
  = (None, answer :: ins)
  /\ (PyStr.lower (PyStr.strip answer) <> "y" ->
      Console.main predict_tech predict_brand py_int py_float d
        (l_brand :: l_model :: l_year :: answer :: ins)
      = Some {| Console.valuations := [None];
                Console.ended := Console.Goodbye;
                Console.unread := ins |}).
Proof.
  intros Hl [[name r] Hsel] Hyear.
  assert (Hcall : Console.get_prediction py_int py_float
            (predict_tech tech_model) (predict_brand brand_model) mappings
            (l_brand :: l_model :: l_year :: answer :: ins)
          = (None, answer :: ins)).
  { unfold Console.get_prediction.
    rewrite run_input_e. cbv beta zeta. rewrite run_bind_e.
    unfold Console.reading_one at 1.
    rewrite select_model_cons, Hsel. cbn [fmap option_fmap option_map fst].
    rewrite run_input_e, run_bind_e. unfold Console.try_ at 1.
    rewrite Hyear. reflexivity. }
  split; [exact Hcall|].
  intros Hans. unfold Console.main. rewrite Hl.
  rewrite loop_unfold, Hcall.
  apply String.eqb_neq in Hans. now rewrite Hans.
Qed.

Lemma error_stops_the_reading_witness :
  let d := {| tech_model_pkl := Some tt; brand_model_pkl := Some tt;
              mappings_json := Some (Some demo_table) |} in
  Console.load_resources d = (Some tt, Some tt, Some demo_table)
  /\ Numeral.int "twenty" = None
  /\ Console.main (fun _ _ => 0%R) (fun _ _ => 0%R) Numeral.int
       Numeral.float d ["Ford"; "mondeo"; "twenty"; "no"; "left"]
     = Some {| Console.valuations := [None];
               Console.ended := Console.Goodbye;
               Console.unread := ["left"] |}.
Proof.
  intros d. split; [reflexivity|]. split; [reflexivity|].
  apply (error_stops_the_reading (fun _ _ => 0%R) (fun _ _ => 0%R)
           Numeral.int Numeral.float d tt tt (Some demo_table)
           "Ford" "mondeo" "twenty" "no" ["left"]).
  - reflexivity.
  - apply (bool_decide_unpack _). vm_compute. reflexivity.
  - reflexivity.
  - vm_compute. discriminate.
Defined.

(** X26. [load_resources] of the console returns the two models together or
    [None] for both: [None] exactly when one of the two model files does not
    load or [mappings.json] exists and does not load, and then the mappings
    are [None] too; otherwise the two models as loaded and the mappings of
    the file, or [None] when there is no file. *)
Theorem console_loads_all_or_nothing {model : Type} (d : disk model) :
  let '(m_tech, m_brand, mappings) := Console.load_resources d in
  (m_tech = None <-> m_brand = None)
  /\ (m_tech = None <->
      tech_model_pkl d = None \/ brand_model_pkl d = None
      \/ mappings_json d = Some None)
  /\ (m_tech = None -> mappings = None)
  /\ (m_tech <> None ->
      m_tech = tech_model_pkl d /\ m_brand = brand_model_pkl d
      /\ mappings = match mappings_json d with
                    | Some (Some mappings) => Some mappings
                    | _ => None
                    end).
Proof.
  unfold Console.load_resources.
  destruct (tech_model_pkl d) as [t|], (brand_model_pkl d) as [b|],
    (mappings_json d) as [[mp|]|]; cbn;
    repeat split; intros; try congruence; try tauto;
    try (repeat match goal with H : _ \/ _ |- _ => destruct H end;
         congruence); auto.
Qed.

(** X27. [main] returns at once exactly when a model file does not load or
    [mappings.json] exists and does not load; the page shows its critical
    error in these cases and also when there is no [mappings.json]; with
    the three files loaded the page runs on what they hold; whenever the
    page shows its form, [main] values cars; and with the two models loaded
    and no [mappings.json] the page shows the error while [main] values
    cars, with at least one call of [get_prediction]. *)
Theorem page_needs_the_mappings {model : Type}
    (predict_tech : model -> list num -> R)
    (predict_brand : model -> list (option num) -> R)
    (py_int : string -> option Z) (py_float : string -> option spec_float)
    (d : disk model) (w : App.widgets) (ins : list string) :
  let console :=
    Console.main predict_tech predict_brand py_int py_float d ins in
  let page := Page.script predict_tech predict_brand d w in
  (Console.ended <$> console = Some Console.NoModels <->
   tech_model_pkl d = None \/ brand_model_pkl d = None
   \/ mappings_json d = Some None)
  /\ (page = Page.CriticalError <->
      tech_model_pkl d = None \/ brand_model_pkl d = None
      \/ mappings_json d = Some None \/ mappings_json d = None)
  /\ (forall tech_model brand_model mappings,
        tech_model_pkl d = Some tech_model ->
        brand_model_pkl d = Some brand_model ->
        mappings_json d = Some (Some mappings) ->
        page = Page.Form (App.run (predict_tech tech_model)
                            (predict_brand brand_model) mappings w))
  /\ (page <> Page.CriticalError ->
      exists s, console = Some s
                /\ Console.ended s <> Console.NoModels
                /\ Console.valuations s <> [])
  /\ (tech_model_pkl d <> None -> brand_model_pkl d <> None ->
      mappings_json d = None ->
      page = Page.CriticalError
      /\ exists s, console = Some s
                   /\ Console.ended s <> Console.NoModels
                   /\ Console.valuations s <> []).
Proof.
  intros console page.
  assert (Hs : forall t b mp,
            Console.load_resources d = (Some t, Some b, mp) ->
            exists s, console = Some s
                      /\ Console.ended s <> Console.NoModels
                      /\ Console.valuations s <> []).
  { intros t b mp E. unfold console, Console.main. rewrite E.
    destruct (loop_fuel py_int py_float (predict_tech t) (predict_brand b)
                mp (S (length ins)) ins ltac:(lia)) as [_ [s Hs]].
    exists s. split; [exact Hs|].
    destruct (loop_session _ _ _ _ _ _ _ _ Hs) as (_ & H2 & H3 & _).
    auto. }
  assert (Hc : Console.ended <$> console = Some Console.NoModels <->
     tech_model_pkl d = None \/ brand_model_pkl d = None
     \/ mappings_json d = Some None).
  { destruct (tech_model_pkl d) as [t|] eqn:Et;
      [destruct (brand_model_pkl d) as [b|] eqn:Eb;
       [destruct (mappings_json d) as [[mp|]|] eqn:Em|]|];
      try (unfold console, Console.main, Console.load_resources;
           rewrite ?Et, ?Eb, ?Em; cbn; tauto).
    - destruct (Hs t b (Some mp)) as (s & -> & Hn & _).
      { unfold Console.load_resources. now rewrite Et, Eb, Em. }
      cbn. split; [congruence | intros [|[|]]; discriminate].
    - destruct (Hs t b None) as (s & -> & Hn & _).
      { unfold Console.load_resources. now rewrite Et, Eb, Em. }
      cbn. split; [congruence | intros [|[|]]; discriminate]. }
  assert (Hp : page = Page.CriticalError <->
      tech_model_pkl d = None \/ brand_model_pkl d = None
      \/ mappings_json d = Some None \/ mappings_json d = None).
  { unfold page, Page.script, Page.load_resources.
    destruct (tech_model_pkl d), (brand_model_pkl d),
      (mappings_json d) as [[|]|]; cbn; split; auto; try discriminate;
      intros [|[|[|]]]; discriminate. }
  split; [exact Hc|]. split; [exact Hp|]. split; [|split].
  - intros t b mp Ht Hb Hm. unfold page, Page.script, Page.load_resources.
    now rewrite Ht, Hb, Hm.
  - intros Hne.
    destruct (tech_model_pkl d) as [t|] eqn:Et; [|tauto].
    destruct (brand_model_pkl d) as [b|] eqn:Eb; [|tauto].
    destruct (mappings_json d) as [[mp|]|] eqn:Em; [|tauto|tauto].
    apply (Hs t b (Some mp)).
    unfold Console.load_resources. now rewrite Et, Eb, Em.
  - intros Ht Hb Hm. split; [apply Hp; auto|].
    destruct (tech_model_pkl d) as [t|] eqn:Et; [|congruence].
    destruct (brand_model_pkl d) as [b|] eqn:Eb; [|congruence].
    apply (Hs t b None).
    unfold Console.load_resources. now rewrite Et, Eb, Hm.
Qed.

